(** * Wiki table generation for EU5: a shallow embedding of
      [eu5/generate_tables.py] (class [TableGenerator]) and the properties
      of its cell renderers, note builders and section wrappers.

    Python values are modelled as follows.
    - [str] is [string] (a sequence of 8-bit characters; the case and
      whitespace functions below cover the ASCII range);
    - [int] is [Z]; [len] and set sizes are [nat];
    - a [dict] keyed by strings is a [gmap string _]; a [set] is a [gset];
    - an exception is a [Raise] in the [outcome] monad. *)

From Stdlib Require Import ZArith Ascii String DecimalString Sorted.
From stdpp Require Import base option list gmap strings.

Local Open Scope Z_scope.

#[local] Set Warnings "-clear-no-such-hyp".

(** ** Exceptions *)

Inductive exn := AttributeError | KeyError | TypeError.

Inductive outcome (A : Type) :=
| Ok (a : A)
| Raise (e : exn).
Arguments Ok {A} a.
Arguments Raise {A} e.

#[global] Instance outcome_ret : MRet outcome := fun A a => Ok a.
#[global] Instance outcome_bind : MBind outcome := fun A B k m =>
  match m with
  | Ok a => k a
  | Raise e => Raise e
  end.

(** A [for] loop whose body may raise: the first exception ends the loop. *)
Fixpoint for_each {A S} (body : S -> A -> outcome S) (xs : list A) (s : S) : outcome S :=
  match xs with
  | [] => Ok s
  | x :: xs' => s' ← body s x; for_each body xs' s'
  end.

Definition raises {A} (m : outcome A) : Prop := exists e, m = Raise e.

(** ** Strings *)

Module Str.

(** The line feed, written ['\n'] in the source. *)
Definition nl : string := String (ascii_of_nat 10) "".

(** [sep.join(parts)] *)
Fixpoint join (sep : string) (parts : list string) : string :=
  match parts with
  | [] => ""
  | [p] => p
  | p :: rest => p +:+ sep +:+ join sep rest
  end.

(** [str.isspace] on one ASCII character: tab, line feed, vertical tab,
    form feed, carriage return, the four separators 28..31 and space. *)
Definition isspace (c : ascii) : bool :=
  let n := nat_of_ascii c in
  ((9 <=? n)%nat && (n <=? 13)%nat) || ((28 <=? n)%nat && (n <=? 32)%nat).

Fixpoint lstrip (s : string) : string :=
  match s with
  | EmptyString => ""
  | String c rest => if isspace c then lstrip rest else s
  end.

Fixpoint rstrip (s : string) : string :=
  match s with
  | EmptyString => ""
  | String c rest =>
      match rstrip rest with
      | EmptyString => if isspace c then "" else String c ""
      | kept => String c kept
      end
  end.

(** [s.strip()] *)
Definition strip (s : string) : string := rstrip (lstrip s).

Fixpoint all_space (s : string) : bool :=
  match s with
  | EmptyString => true
  | String c rest => isspace c && all_space rest
  end.

(** [str(n)] for an [int]. *)
Definition of_Z (z : Z) : string := NilZero.string_of_int (Z.to_int z).

Definition is_upper (c : ascii) : bool :=
  let n := nat_of_ascii c in (65 <=? n)%nat && (n <=? 90)%nat.
Definition is_lower (c : ascii) : bool :=
  let n := nat_of_ascii c in (97 <=? n)%nat && (n <=? 122)%nat.
Definition is_alpha (c : ascii) : bool := is_upper c || is_lower c.

Definition lower_char (c : ascii) : ascii :=
  if is_upper c then ascii_of_nat (nat_of_ascii c + 32) else c.
Definition upper_char (c : ascii) : ascii :=
  if is_lower c then ascii_of_nat (nat_of_ascii c - 32) else c.

Fixpoint map_chars (f : ascii -> ascii) (s : string) : string :=
  match s with
  | EmptyString => ""
  | String c rest => String (f c) (map_chars f rest)
  end.

(** [s.lower()] *)
Definition lower (s : string) : string := map_chars lower_char s.

(** [s.capitalize()]: first character upper-cased, the rest lower-cased. *)
Definition capitalize (s : string) : string :=
  match s with
  | EmptyString => ""
  | String c rest => String (upper_char c) (lower rest)
  end.

(** [s.title()]: a letter that follows a non-letter is upper-cased, every
    other letter is lower-cased. *)
Fixpoint title_from (after_letter : bool) (s : string) : string :=
  match s with
  | EmptyString => ""
  | String c rest =>
      String (if after_letter then lower_char c else upper_char c)
             (title_from (is_alpha c) rest)
  end.
Definition title (s : string) : string := title_from false s.

(** [s.replace(old, new)] for one-character [old] and [new]. *)
Definition replace_char (old new : ascii) (s : string) : string :=
  map_chars (fun c => if Ascii.eqb c old then new else c) s.

(** Truth value of a string: non-empty. *)
Definition truthy (s : string) : bool :=
  match s with EmptyString => false | _ => true end.

(** [s.startswith(prefix)] *)
Fixpoint startswith (prefix s : string) : bool :=
  match prefix, s with
  | EmptyString, _ => true
  | String a prefix', String b s' => Ascii.eqb a b && startswith prefix' s'
  | String _ _, EmptyString => false
  end.

(** [needle in s] *)
Fixpoint contains (needle s : string) : bool :=
  startswith needle s ||
  match s with
  | EmptyString => false
  | String _ rest => contains needle rest
  end.

End Str.

(** ** Entities

    Every parsed entity has a machine name, a display name and a wiki link
    with icon (the result of its [get_wiki_link_with_icon()] method). *)

Record NameableEntity := {
  name : string;
  display_name : string;
  get_wiki_link_with_icon : string;
}.

(** ** [merge_multiple_sections]

    The argument is a [dict] (given by its items in insertion order) or a
    list of (header, content) pairs. *)

Inductive headers_arg :=
| HeaderDict (items : list (string * string))
| HeaderList (pairs : list (string * string)).

Definition merge_section_step (result : list string) (hc : string * string) : list string :=
  let '(header, content) := hc in
  if String.eqb (Str.strip content) "" then result
  else
    let section := [] in
    let section := if Str.truthy header then section ++ ["'''" +:+ header +:+ ":'''"] else section in
    let section := section ++ [content] in
    result ++ [Str.join Str.nl section].

Definition merge_multiple_sections (headers_with_content : headers_arg) : string :=
  let headers_with_content :=
    match headers_with_content with
    | HeaderDict items => items
    | HeaderList pairs => pairs
    end in
  let result := foldl merge_section_step [] headers_with_content in
  Str.join Str.nl result.

(** ** [LawPolicy] and [_format_time_to_implement] *)

Record LawPolicy := {
  policy_entity :> NameableEntity;
  days : Z;
  weeks : Z;
  months : Z;
  years : Z;
  gold : option bool;
  manpower : option bool;
  allow_member_annexation : option bool;
  can_build_buildings_in_members : option bool;
  can_build_rgos_in_members : option bool;
  can_build_roads_in_members : option bool;
  has_parliament : option bool;
}.

(** The three carries at the start of [_format_time_to_implement]; the
    result is (days, weeks, months, years). *)
Definition carry_overflow (policy : LawPolicy) : Z * Z * Z * Z :=
  let days := days policy in
  let weeks := weeks policy in
  let months := months policy in
  let years := years policy in
  let '(years, days) :=
    if 365 <=? days then (years + days `div` 365, days `mod` 365) else (years, days) in
  let '(years, weeks) :=
    if 52 <=? weeks then (years + weeks `div` 52, weeks `mod` 52) else (years, weeks) in
  let '(years, months) :=
    if 12 <=? months then (years + months `div` 12, months `mod` 12) else (years, months) in
  (days, weeks, months, years).

Definition _format_time_to_implement (policy : LawPolicy) (ignore_default_years : Z) : string :=
  let '(days, weeks, months, years) := carry_overflow policy in
  if (years =? ignore_default_years) && ((days =? weeks) && (weeks =? months) && (months =? 0))
  then ""
  else
    let result := [] in
    let result := if 0 <? years then result ++ [Str.of_Z years +:+ " years"] else result in
    let result := if 0 <? months then result ++ [Str.of_Z months +:+ " months"] else result in
    let result := if 0 <? weeks then result ++ [Str.of_Z weeks +:+ " weeks"] else result in
    let result := if 0 <? days then result ++ [Str.of_Z days +:+ " days"] else result in
    Str.join Str.nl result.

(** The call made by [get_law_policy_table]. *)
Definition time_to_implement_cell (policy : LawPolicy) : string :=
  _format_time_to_implement policy 2.

(** ** Boolean cells *)

(** The boolean columns of [get_law_policy_table], in column order. *)
Definition law_policy_bool_cells (policy : LawPolicy) : list (string * string) :=
  [ ("Gold",
     match gold policy with
     | None => ""
     | Some v => if v then "[[File:Yes.png|20px|Gold]]" else "[[File:No.png|20px|Not Gold]]"
     end);
    ("Manpower",
     match manpower policy with
     | None => ""
     | Some v => if v then "[[File:Yes.png|20px|Manpower]]" else "[[File:No.png|20px|Not Manpower]]"
     end);
    ("Allow Member Annexation",
     match allow_member_annexation policy with
     | None => ""
     | Some v => if v then "[[File:Yes.png|20px|Allow Member Annexation]]"
                 else "[[File:No.png|20px|Not Allow Member Annexation]]"
     end);
    ("Can Build Buildings In Members",
     match can_build_buildings_in_members policy with
     | None => ""
     | Some v => if v then "[[File:Yes.png|20px|Can Build Buildings In Members]]"
                 else "[[File:No.png|20px|Not Can Build Buildings In Members]]"
     end);
    ("Can Build Rgos In Members",
     match can_build_rgos_in_members policy with
     | None => ""
     | Some v => if v then "[[File:Yes.png|20px|Can Build Rgos In Members]]"
                 else "[[File:No.png|20px|Not Can Build Rgos In Members]]"
     end);
    ("Can Build Roads In Members",
     match can_build_roads_in_members policy with
     | None => ""
     | Some v => if v then "[[File:Yes.png|20px|Can Build Roads In Members]]"
                 else "[[File:No.png|20px|Not Can Build Roads In Members]]"
     end);
    ("Has Parliament",
     match has_parliament policy with
     | None => ""
     | Some v => if v then "[[File:Yes.png|20px|Has Parliament]]"
                 else "[[File:No.png|20px|Not Has Parliament]]"
     end) ].

(** Truth value of a [bool | None] attribute. *)
Definition truth (v : option bool) : bool :=
  match v with
  | Some b => b
  | None => false
  end.

Record Advance := {
  advance_entity :> NameableEntity;
  allow_children : option bool;
}.

(** The 'Allow Children' column of [generate_advances_table]: a conditional
    on the attribute's truth value, with no test for [None]. *)
Definition advances_allow_children_cell (advances : Advance) : string :=
  if truth (allow_children advances)
  then "[[File:Yes.png|20px|Allow Children]]"
  else "[[File:No.png|20px|Not Allow Children]]".

(** ** Countries and [infer_country_rank_key] *)

Definition Province := string.

(** A location; reading [loc.province] yields a province or [None], or
    raises. *)
Record Location := {
  province : outcome (option Province);
}.

(** The value of an ownership attribute of a country: a list of locations,
    or some other sized value that is not a list. *)
Inductive country_attr :=
| AttrList (value : list Location)
| AttrOther (size : nat).

Definition len (v : country_attr) : nat :=
  match v with
  | AttrList value => length value
  | AttrOther size => size
  end.

Record Country := {
  country_entity :> NameableEntity;
  attrs : gmap string country_attr;
}.

Definition candidates : list string :=
  [ "own_control_core"; "own_core"; "control";
    "own_conquered"; "own_control_conquered"; "own_control_integrated"; "own_control_colony" ].

(** Body of the inner loop [for loc in value]. *)
Definition add_location (provinces : gset Province) (loc : Location) : gset Province :=
  let prov :=
    match province loc with
    | Ok prov => prov
    | Raise _ => None
    end in
  match prov with
  | Some prov => provinces ∪ {[ prov ]}
  | None => provinces
  end.

(** Body of the outer loop [for attr in candidates]. *)
Definition add_candidate (country : Country) (provinces : gset Province) (attr : string)
  : gset Province :=
  match attrs country !! attr with
  | Some (AttrList value) =>
      if (0 <? length value)%nat then foldl add_location provinces value else provinces
  | Some (AttrOther _) => provinces
  | None => provinces
  end.

Definition collect_provinces (country : Country) : gset Province :=
  foldl (add_candidate country) ∅ candidates.

Definition infer_country_rank_key (country : Country) : string :=
  let provinces := collect_provinces country in
  let n := size provinces in
  if (n <=? 0)%nat then "rank_county"
  else if (n <=? 2)%nat then "rank_county"
  else if (n <=? 5)%nat then "rank_duchy"
  else if (n <=? 12)%nat then "rank_kingdom"
  else "rank_empire".

(** ** Attribute values of duck-typed entities *)

#[warnings="-register-all"]
Inductive pyval :=
| PNone
| PBool (b : bool)
| PInt (z : Z)
| PStr (s : string)
| PList (items : list pyval)
| PObj (id : positive).

(** [a == b]: booleans compare as the integers 0 and 1, lists compare
    element by element, objects by identity. Numbers are integers here. *)
Fixpoint py_eq (a b : pyval) : bool :=
  match a, b with
  | PNone, PNone => true
  | PBool x, PBool y => Bool.eqb x y
  | PBool x, PInt y => (if x then 1 else 0) =? y
  | PInt x, PBool y => x =? (if y then 1 else 0)
  | PInt x, PInt y => x =? y
  | PStr x, PStr y => String.eqb x y
  | PList xs, PList ys =>
      (fix all_eq (xs ys : list pyval) : bool :=
         match xs, ys with
         | [], [] => true
         | x :: xs', y :: ys' => py_eq x y && all_eq xs' ys'
         | _, _ => false
         end) xs ys
  | PObj x, PObj y => Pos.eqb x y
  | _, _ => false
  end.

(** [a != b] *)
Definition py_ne (a b : pyval) : bool := negb (py_eq a b).

(** [getattr(entity, attribute)], the entity being the map of its
    attributes; [hasattr] is the test that the lookup succeeds. *)
Definition getattr (entity : gmap string pyval) (attribute : string) : outcome pyval :=
  match entity !! attribute with
  | Some v => Ok v
  | None => Raise AttributeError
  end.

(** [d[key]] on a dict keyed by strings. *)
Definition getitem {V} (d : gmap string V) (key : string) : outcome V :=
  match d !! key with
  | Some v => Ok v
  | None => Raise KeyError
  end.

(** The one-character strings of a string. *)
Fixpoint characters (s : string) : list pyval :=
  match s with
  | EmptyString => []
  | String c rest => PStr (String c "") :: characters rest
  end.

(** The elements visited by [for x in v]: those of a list, the characters
    of a string; the other values are not iterable. *)
Definition iterate (v : pyval) : outcome (list pyval) :=
  match v with
  | PList items => Ok items
  | PStr s => Ok (characters s)
  | PNone | PBool _ | PInt _ | PObj _ => Raise TypeError
  end.

(** A list comprehension [[f(x) for x in xs]] whose element may raise. *)
Fixpoint comprehension {A B} (f : A -> outcome B) (xs : list A) : outcome (list B) :=
  match xs with
  | [] => Ok []
  | x :: xs' => y ← f x; ys ← comprehension f xs'; Ok (y :: ys)
  end.

Record Building := {
  building_attrs : gmap string pyval;
  default_values : gmap string pyval;
}.

(** ** Collaborators outside this file

    The formatter, the list helper of the generator base class and the
    string conversions of entity objects are taken as an interface. *)

Class Collaborators := {
  (** [self.create_wiki_list(elements)] *)
  create_wiki_list : list string -> string;
  (** [modifier.format_for_wiki()] *)
  format_for_wiki : pyval -> string;
  (** [self.formatter.add_red_green(v, positive_is_good=False, add_plus=True, add_percent=True)] *)
  add_red_green : pyval -> string;
  (** [self.formatter.format_effect(v)] *)
  format_effect : pyval -> string;
  (** [self.formatter.format_localization_text(text, all_concept_names)] *)
  format_localization_text : string -> list string -> string;
  (** [str(v)] of a list or an object *)
  obj_str : pyval -> string;
}.

Section Generator.
Context `{Collaborators}.

(** A value inside an f-string. *)
Definition py_format (v : pyval) : string :=
  match v with
  | PNone => "None"
  | PBool true => "True"
  | PBool false => "False"
  | PInt z => Str.of_Z z
  | PStr s => s
  | PList _ | PObj _ => obj_str v
  end.

(** *** [format_modifier_section] *)

(** The method call [modifier.format_for_wiki()]: only objects have the
    method. *)
Definition call_format_for_wiki (modifier : pyval) : outcome string :=
  match modifier with
  | PObj _ => Ok (format_for_wiki modifier)
  | _ => Raise AttributeError
  end.

Definition format_modifier_section (section : string) (entity : gmap string pyval)
  : outcome string :=
  match entity !! section with
  | Some v =>
      modifiers ← iterate v;
      formatted ← comprehension call_format_for_wiki modifiers;
      Ok (create_wiki_list formatted)
  | None => Ok ""
  end.

(** *** [get_building_notes] *)

(** The subscript [{"empty": "only", "any": "also", "owned": "not"}[building.in_empty]]. *)
Definition in_empty_word (in_empty : pyval) : outcome string :=
  match in_empty with
  | PStr s =>
      if String.eqb s "empty" then Ok "only"
      else if String.eqb s "any" then Ok "also"
      else if String.eqb s "owned" then Ok "not"
      else Raise KeyError
  | PList _ => Raise TypeError
  | _ => Raise KeyError
  end.

(** The dict [messages_for_non_default_values], whose values are computed
    when the dict is built, in the order of its entries. *)
Definition messages_for_non_default_values (building : Building)
  : outcome (list (string * string)) :=
  conversion_religion ← getattr (building_attrs building) "conversion_religion";
  increase_per_level_cost ← getattr (building_attrs building) "increase_per_level_cost";
  in_empty ← getattr (building_attrs building) "in_empty";
  in_empty_text ← in_empty_word in_empty;
  pop_size_created ← getattr (building_attrs building) "pop_size_created";
  on_built ← getattr (building_attrs building) "on_built";
  on_destroyed ← getattr (building_attrs building) "on_destroyed";
  Ok [ ("always_add_demands", "Demand does not scale with workers");
       ("AI_ignore_available_worker_flag", "Build by AI even without available workers");
       ("AI_optimization_flag_coastal", "");
       ("allow_wrong_startup", "<tt>allow_wrong_startup</tt>");
       ("can_close", "Cannot be closed");
       ("conversion_religion", "Converts pops to " +:+ py_format conversion_religion);
       ("forbidden_for_estates", "Cannot be build by estates");
       ("increase_per_level_cost",
        "Cost changes by " +:+ add_red_green increase_per_level_cost +:+ " per level");
       ("in_empty", "Can " +:+ in_empty_text +:+ " be built in empty locations");
       ("is_foreign", "Foreign building");
       ("lifts_fog_of_war", "Lifts fog of war");
       ("need_good_relation", "Needs good relations when building in foreign provinces");
       ("pop_size_created",
        "Creates " +:+ py_format pop_size_created
          +:+ " pops when building(taken from the capital of the owner)");
       ("stronger_power_projection",
        "Requires more power projection to construct in a foreign location");
       ("on_built", "'''On Built:'''" +:+ Str.nl +:+ format_effect on_built);
       ("on_destroyed", "'''On Destroyed:'''" +:+ Str.nl +:+ format_effect on_destroyed) ].

(** Body of the loop over the items of the dict. *)
Definition notes_step (building : Building) (result : list string) (item : string * string)
  : outcome (list string) :=
  let '(attribute, message) := item in
  live ← getattr (building_attrs building) attribute;
  default ← getitem (default_values building) attribute;
  if py_ne live default then Ok (result ++ [message]) else Ok result.

Definition get_building_notes (building : Building) : outcome string :=
  messages ← messages_for_non_default_values building;
  result ← for_each (notes_step building) messages [];
  Ok (create_wiki_list result).

End Generator.

(** ** Game concepts and [get_concept_section] *)

#[warnings="-register-all"]
Inductive Eu5GameConcept := {
  concept_entity : NameableEntity;
  description : string;
  alias : list Eu5GameConcept;
  (** [str(concept)] *)
  concept_str : string;
}.

Section Concepts.
Context `{Collaborators}.

Definition get_concept_section_contents (all_concept_names : list string)
    (concept : Eu5GameConcept) : string :=
  format_localization_text (description concept) all_concept_names.

Definition get_concept_section (all_concept_names : list string)
    (concept : Eu5GameConcept) : list string :=
  let result := ["=== " +:+ concept_str concept +:+ " ==="] in
  let result :=
    match alias concept with
    | [] => result
    | _ :: _ =>
        let alias_display_names :=
          map (fun alias => display_name (concept_entity alias)) (alias concept) in
        result ++
          ["{{hatnote|Aliases: "
             +:+ Str.join ", "
                   (map (fun alias_display_name =>
                           format_localization_text alias_display_name all_concept_names)
                        alias_display_names)
             +:+ "}}{{anchor|"
             +:+ Str.join "}}{{anchor|" alias_display_names
             +:+ "}}"]
    end in
  result ++
    ["<section begin=autogenerated_concept_" +:+ name (concept_entity concept) +:+ "/>"
       +:+ get_concept_section_contents all_concept_names concept
       +:+ "<section end=autogenerated_concept_" +:+ name (concept_entity concept) +:+ "/>"].

End Concepts.

(** ** The parser's tables and [get_country_notes] *)

Record FormableCountry := {
  country_name : string;
}.

(** [parser.diplomacy_relationships]: the tables read with a subscript are
    fields; [io_member_laws] is read with [.get] and may be missing. *)
Record DiplomacyRelationships := {
  overlords : gmap string string;
  rel_subject_types : gmap string string;
  io_members : gmap string (list string);
  io_member_laws : option (gmap string (gmap string (list string)));
}.

Record Eu5Parser := {
  (** [formable_countries.values()] *)
  formable_countries : list FormableCountry;
  (** [None] when the parser has no such attribute *)
  diplomacy_relationships : option DiplomacyRelationships;
  subject_types : gmap string NameableEntity;
  countries : gmap string Country;
  international_organizations : gmap string NameableEntity;
  law_policies : gmap string LawPolicy;
  laws : gmap string NameableEntity;
}.

(** [hasattr(country, attr) and len(country.attr) > 0] *)
Definition has_nonempty (country : Country) (attr : string) : bool :=
  match attrs country !! attr with
  | Some v => (0 <? len v)%nat
  | None => false
  end.

Definition formable_note : string :=
  "[[File:Country rank.png|24px|link=Formable countries]] [[Formable countries|Formable Country]]".

(** The display name of the first branch law, when the list is not empty. *)
Definition branch_display_of (parser : Eu5Parser) (branch_laws : list string) : option string :=
  match branch_laws with
  | branch_key :: _ =>
      match law_policies parser !! branch_key with
      | Some policy => Some (display_name (policy_entity policy))
      | None =>
          match laws parser !! branch_key with
          | Some law => Some (display_name law)
          | None => Some (Str.title (Str.replace_char "_" " " branch_key))
          end
      end
  | [] => None
  end.

(** Body of the loop [for io_name in io_names]. *)
Definition io_step (parser : Eu5Parser) (country : Country)
    (io_member_laws : gmap string (gmap string (list string)))
    (notes : list string) (io_name : string) : list string :=
  if negb (bool_decide (Str.lower io_name ∈ ["catholic_church"; "papacy"])) then
    match international_organizations parser !! io_name with
    | Some io_obj =>
        let branch_display :=
          if String.eqb (Str.lower io_name) "hindu_branch" then
            let branch_laws :=
              default [] (default ∅ (io_member_laws !! name country) !! io_name) in
            branch_display_of parser branch_laws
          else None in
        match branch_display with
        | Some (String _ _ as branch_display) =>
            let branch_file := Str.lower branch_display in
            notes ++ ["Member of [[File:IO " +:+ branch_file
                        +:+ ".png|24px]] [[International organization#Hindu Branches|"
                        +:+ branch_display +:+ "]]"]
        | _ => notes ++ ["Member of " +:+ get_wiki_link_with_icon io_obj]
        end
    | None => notes ++ ["Member of {{iconify|" +:+ io_name +:+ "}}"]
    end
  else notes.

Definition get_country_notes (parser : Eu5Parser) (country : Country)
  : list string * option (list string) :=
  let notes : list string := [] in
  let nested_details : option (list string) := None in
  let is_formable :=
    existsb (fun fc => String.eqb (country_name fc) (name country))
            (formable_countries parser) in
  let has_conquered_cores := has_nonempty country "our_cores_conquered_by_others" in
  let has_owned_cores :=
    has_nonempty country "own_control_core" ||
    has_nonempty country "own_core" ||
    has_nonempty country "own_conquered" ||
    has_nonempty country "own_control_conquered" ||
    has_nonempty country "own_control_integrated" ||
    has_nonempty country "own_control_colony" ||
    has_nonempty country "control" in
  let notes :=
    if has_conquered_cores && negb has_owned_cores
    then notes ++ ["Does not exist in 1337"] else notes in
  let notes :=
    match diplomacy_relationships parser with
    | Some diplo_rels =>
        let io_member_laws := default ∅ (io_member_laws diplo_rels) in
        let notes :=
          match overlords diplo_rels !! name country with
          | Some overlord_tag =>
              let subject_type := default "subject" (rel_subject_types diplo_rels !! name country) in
              let subject_display :=
                match subject_types parser !! subject_type with
                | Some st => get_wiki_link_with_icon st
                | None => Str.capitalize subject_type
                end in
              let overlord_flag :=
                match countries parser !! overlord_tag with
                | Some overlord_country => get_wiki_link_with_icon (country_entity overlord_country)
                | None => "{{flag|" +:+ overlord_tag +:+ "}}"
                end in
              notes ++ [subject_display +:+ " of " +:+ overlord_flag]
          | None => notes
          end in
        match io_members diplo_rels !! name country with
        | Some io_names => foldl (io_step parser country io_member_laws) notes io_names
        | None => notes
        end
    | None => notes
    end in
  let notes := if is_formable then notes ++ [formable_note] else notes in
  (notes, nested_details).

(** ** More string functions *)

Module Text.

(** [s.split(sep)] for a one-character separator: the pieces between the
    separators, at least one piece. *)
Fixpoint split (sep : ascii) (s : string) : list string :=
  match s with
  | EmptyString => [""]
  | String c rest =>
      if Ascii.eqb c sep then "" :: split sep rest
      else
        match split sep rest with
        | piece :: pieces => String c piece :: pieces
        | [] => [String c ""]
        end
  end.

(** [s.lstrip(c)] for a one-character set. *)
Fixpoint lstrip_char (c : ascii) (s : string) : string :=
  match s with
  | EmptyString => ""
  | String x rest => if Ascii.eqb x c then lstrip_char c rest else s
  end.

Fixpoint repeat_char (c : ascii) (n : nat) : string :=
  match n with
  | O => ""
  | S n' => String c (repeat_char c n')
  end.

(** [c * n] for a one-character string and an [int]: empty when [n] is
    not positive. *)
Definition mul (c : ascii) (n : Z) : string := repeat_char c (Z.to_nat n).

(** [len(s)] *)
Definition len (s : string) : Z := Z.of_nat (String.length s).

(** [s.upper()] *)
Definition upper (s : string) : string := Str.map_chars Str.upper_char s.

(** [s.removeprefix(prefix)] *)
Fixpoint drop (n : nat) (s : string) : string :=
  match n, s with
  | O, _ => s
  | S n', String _ rest => drop n' rest
  | S _, EmptyString => ""
  end.
Definition removeprefix (prefix s : string) : string :=
  if Str.startswith prefix s then drop (String.length prefix) s else s.

End Text.

(** ** [_nest_wiki_list] *)

(** Body of the loop [for line in text.split('\n')]. *)
Definition nest_line (extra_depth : Z) (nested_lines : list string) (line : string)
  : list string :=
  let stripped := Str.strip line in
  if negb (Str.truthy stripped) then nested_lines
  else
    let leading_stars := Text.len line - Text.len (Text.lstrip_char "*" line) in
    let base_depth := if 0 <? leading_stars then leading_stars else 1 in
    let new_depth := base_depth + extra_depth in
    let payload := Str.strip (Text.lstrip_char "*" line) in
    nested_lines ++ [Text.mul "*" new_depth +:+ " " +:+ payload].

Definition _nest_wiki_list (text : string) (extra_depth : Z) : list string :=
  foldl (nest_line extra_depth) [] (Text.split (ascii_of_nat 10) text).

(** ** Trigger trees

    Modelled from the spec: the class [Tree] of [common.paradox_parser] is
    outside this file. A tree is an ordered mapping from keys to values,
    each value a leaf scalar, a list or a subtree; iterating a tree yields
    its (key, value) pairs in order, [len] counts them, an empty tree is
    false, and [tree[key] = value] replaces the value of a key that is
    present and appends the pair otherwise. *)

#[warnings="-register-all"]
Inductive node :=
| Leaf (v : pyval)
| Items (items : list node)
| Sub (entries : list (string * node)).

(** [tree[key] = value] *)
Fixpoint setitem (entries : list (string * node)) (key : string) (value : node)
  : list (string * node) :=
  match entries with
  | [] => [(key, value)]
  | (k, x) :: rest =>
      if String.eqb k key then (k, value) :: rest else (k, x) :: setitem rest key value
  end.

(** Truth value of a scalar. *)
Definition py_truthy (v : pyval) : bool :=
  match v with
  | PNone => false
  | PBool b => b
  | PInt z => negb (z =? 0)
  | PStr s => Str.truthy s
  | PList items => match items with [] => false | _ => true end
  | PObj _ => true
  end.

Definition node_truthy (n : node) : bool :=
  match n with
  | Leaf v => py_truthy v
  | Items items => match items with [] => false | _ => true end
  | Sub entries => match entries with [] => false | _ => true end
  end.

(** [if result: return result], [None] standing for no return here. *)
Definition if_truthy (result : option node) : option node :=
  match result with
  | Some v => if node_truthy v then Some v else None
  | None => None
  end.

(** A returned value: the scalar [None] is the result [None]. *)
Definition returned (value : node) : option node :=
  match value with
  | Leaf PNone => None
  | _ => Some value
  end.

(** *** [_find_has_or_had_tag_in_trigger] *)

Fixpoint _find_has_or_had_tag_in_trigger (trigger_tree : node) : option node :=
  match trigger_tree with
  | Sub entries =>
      (fix loop (entries : list (string * node)) : option node :=
         match entries with
         | [] => None
         | (key, value) :: rest =>
             if String.eqb key "has_or_had_tag" then returned value
             else
               match value with
               | Sub _ =>
                   match if_truthy (_find_has_or_had_tag_in_trigger value) with
                   | Some result => Some result
                   | None => loop rest
                   end
               | Items items =>
                   match
                     (fix scan (items : list node) : option node :=
                        match items with
                        | [] => None
                        | item :: items' =>
                            match item with
                            | Sub _ =>
                                match if_truthy (_find_has_or_had_tag_in_trigger item) with
                                | Some result => Some result
                                | None => scan items'
                                end
                            | _ => scan items'
                            end
                        end) items
                   with
                   | Some result => Some result
                   | None => loop rest
                   end
               | Leaf _ => loop rest
               end
         end) entries
  | _ => None
  end.

(** *** [_filter_has_or_had_tag] *)

(** [filtered_value and len(filtered_value) > 0] *)
Definition kept (filtered_value : node) : bool :=
  node_truthy filtered_value
  && match filtered_value with
     | Sub entries => (0 <? length entries)%nat
     | Items items => (0 <? length items)%nat
     | Leaf _ => true
     end.

Fixpoint _filter_has_or_had_tag (trigger_tree : node) : node :=
  match trigger_tree with
  | Sub entries =>
      Sub
        ((fix loop (entries filtered : list (string * node)) : list (string * node) :=
            match entries with
            | [] => filtered
            | (key, value) :: rest =>
                if String.eqb key "has_or_had_tag" then loop rest filtered
                else
                  match value with
                  | Sub _ =>
                      let filtered_value := _filter_has_or_had_tag value in
                      if kept filtered_value
                      then loop rest (setitem filtered key filtered_value)
                      else loop rest filtered
                  | Items items =>
                      let filtered_list :=
                        (fix scan (items filtered_list : list node) : list node :=
                           match items with
                           | [] => filtered_list
                           | item :: items' =>
                               match item with
                               | Sub _ =>
                                   let filtered_item := _filter_has_or_had_tag item in
                                   if kept filtered_item
                                   then scan items' (filtered_list ++ [filtered_item])
                                   else scan items' filtered_list
                               | _ => scan items' (filtered_list ++ [item])
                               end
                           end) items [] in
                      match filtered_list with
                      | [] => loop rest filtered
                      | _ :: _ => loop rest (setitem filtered key (Items filtered_list))
                      end
                  | Leaf _ => loop rest (setitem filtered key value)
                  end
            end) entries [])
  | _ => trigger_tree
  end.

(** *** [_get_country_from_reform] *)

Record GovernmentReform := {
  reform_allow : node;
  reform_potential : node;
  reform_locked : node;
}.

Definition _get_country_from_reform (reform : GovernmentReform) : option node :=
  (fix loop (trigger_objs : list node) : option node :=
     match trigger_objs with
     | [] => None
     | trigger_obj :: rest =>
         match trigger_obj with
         | Leaf PNone => loop rest
         | _ =>
             match if_truthy (_find_has_or_had_tag_in_trigger trigger_obj) with
             | Some countries => Some countries
             | None => loop rest
             end
         end
     end) [reform_allow reform; reform_potential reform; reform_locked reform].

(** ** [create_cargo_tenplate_calls] *)

(** [item_data[key]] on a dict given by its items. *)
Fixpoint item_get (item_data : list (string * pyval)) (key : string) : outcome pyval :=
  match item_data with
  | [] => Raise KeyError
  | (k, v) :: rest => if String.eqb k key then Ok v else item_get rest key
  end.

Section Cargo.
Context `{Collaborators}.

(** Body of the loop [for item_data in data]. *)
Definition cargo_item (template_name : string) (lines : list string)
    (item_data : list (string * pyval)) : outcome (list string) :=
  display_name ← item_get item_data "display_name";
  let lines := lines ++ ["=== " +:+ py_format display_name +:+ " ==="] in
  let lines := lines ++ ["{{" +:+ template_name] in
  let lines :=
    foldl (fun lines cv => lines ++ ["|" +:+ cv.1 +:+ "=" +:+ py_format cv.2])
          lines item_data in
  Ok (lines ++ ["}}"]).

Definition create_cargo_tenplate_calls (data : list (list (string * pyval)))
    (template_name : string) : outcome string :=
  lines ← for_each (cargo_item template_name) data [];
  Ok (Str.join Str.nl lines).

End Cargo.

(** ** Goods and [get_goods_tables]

    The enumeration [GoodCategory] and [get_goods_table], which sorts the
    goods and builds the table, are taken as given. Numbers are integers. *)

Record Good (GoodCategory : Type) := {
  good_entity : NameableEntity;
  good_category : GoodCategory;
  (** empty when the good has no method *)
  good_method : string;
  good_food : Z;
}.
Arguments good_entity {GoodCategory} _.
Arguments good_category {GoodCategory} _.
Arguments good_method {GoodCategory} _.
Arguments good_food {GoodCategory} _.

Section Goods.
Context {GoodCategory : Type} `{EqDecision GoodCategory}.
(** [GoodCategory.produced] *)
Variable produced : GoodCategory.
(** the members, in the order of [for category in GoodCategory] *)
Variable categories : list GoodCategory.
(** [f'{category}'] *)
Variable category_str : GoodCategory -> string.
Variable get_goods_table : list (Good GoodCategory) -> string.

(** The loop that moves the goods with a method to the special goods. *)
Definition split_by_method (goods_in_category : list (Good GoodCategory))
  : list (Good GoodCategory) * list (Good GoodCategory) :=
  foldl (fun '(special_goods, goods_in_category_without_method) good =>
           if Str.truthy (good_method good)
           then (special_goods ++ [good], goods_in_category_without_method)
           else (special_goods, goods_in_category_without_method ++ [good]))
        ([], []) goods_in_category.

(** The three lists of goods that the loop body hands to [get_goods_table]:
    plain goods, food and special goods. *)
Definition goods_lists (goods : list (Good GoodCategory)) (category : GoodCategory)
  : list (Good GoodCategory) * list (Good GoodCategory) * list (Good GoodCategory) :=
  let goods_in_category :=
    List.filter (fun good => bool_decide (good_category good = category)) goods in
  let special_goods := [] in
  let '(special_goods, goods_in_category) :=
    if bool_decide (category = produced) then split_by_method goods_in_category
    else (special_goods, goods_in_category) in
  (List.filter (fun good => good_food good =? 0) goods_in_category,
   List.filter (fun good => 0 <? good_food good) goods_in_category,
   special_goods).

Definition get_goods_tables (goods : list (Good GoodCategory)) : gmap string string :=
  foldl (fun result category =>
           let '(plain, food, special) := goods_lists goods category in
           let result := <[category_str category := get_goods_table plain]> result in
           let result := <[category_str category +:+ "_food" := get_goods_table food]> result in
           <[category_str category +:+ "_special" := get_goods_table special]> result)
        ∅ categories.

End Goods.

(** ** [generate_country_count] *)

(** A location with the entities above it; [None] where it has none. *)
Record Place := {
  place_province : option NameableEntity;
  place_area : option NameableEntity;
  place_region : option NameableEntity;
  place_sub_continent : option NameableEntity;
  place_continent : option NameableEntity;
}.

(** The capital of a country: unset, the name of a location, a list of
    names, or the location itself. *)
Inductive capital_value :=
| CapNone
| CapName (s : string)
| CapNames (names : list string)
| CapPlace (place : Place).

Definition capital_truthy (capital : capital_value) : bool :=
  match capital with
  | CapNone => false
  | CapName s => Str.truthy s
  | CapNames names => match names with [] => false | _ => true end
  | CapPlace _ => true
  end.

(** The capital after the two [isinstance] tests; reading an attribute of
    a name or of a list that was not replaced by a location raises. The
    empty list is not reached: it is false and skipped before. *)
Definition resolve_capital (locations : gmap string Place) (capital : capital_value)
  : outcome Place :=
  match capital with
  | CapName s =>
      match locations !! s with
      | Some place => Ok place
      | None => Raise AttributeError
      end
  | CapNames (first :: _) =>
      match locations !! first with
      | Some place => Ok place
      | None => Raise AttributeError
      end
  | CapNames [] => Raise AttributeError
  | CapPlace place => Ok place
  | CapNone => Raise AttributeError
  end.

(** [d[name] += 1] on a dict given by its items. *)
Fixpoint add_one (d : list (string * Z)) (name : string) : list (string * Z) :=
  match d with
  | [] => []
  | (k, n) :: rest => if String.eqb k name then (k, n + 1) :: rest else (k, n) :: add_one rest name
  end.

(** [if name not in d: d[name] = 0] followed by [d[name] += 1] *)
Definition count_name (d : list (string * Z)) (name : string) : list (string * Z) :=
  let d := if bool_decide (name ∈ map fst d) then d else d ++ [(name, 0)] in
  add_one d name.

(** [if entity: count_name(d, entity.display_name)] *)
Definition count_entity (d : list (string * Z)) (entity : option NameableEntity)
  : list (string * Z) :=
  match entity with
  | Some e => count_name d (display_name e)
  | None => d
  end.

(** The dict [count], one dict per kind of entity. *)
Record Counts := {
  count_province : list (string * Z);
  count_area : list (string * Z);
  count_region : list (string * Z);
  count_sub_continent : list (string * Z);
  count_continent : list (string * Z);
}.

(** Body of the loop [for country in countries], given the capital. *)
Definition count_capital (locations : gmap string Place) (count : Counts)
    (capital : capital_value) : outcome Counts :=
  if negb (capital_truthy capital) then Ok count
  else
    capital ← resolve_capital locations capital;
    Ok {| count_province := count_entity (count_province count) (place_province capital);
          count_area := count_entity (count_area count) (place_area capital);
          count_region := count_entity (count_region count) (place_region capital);
          count_sub_continent :=
            count_entity (count_sub_continent count) (place_sub_continent capital);
          count_continent := count_entity (count_continent count) (place_continent capital) |}.

Definition country_counts (locations : gmap string Place) (capitals : list capital_value)
  : outcome Counts :=
  for_each (count_capital locations) capitals
    {| count_province := []; count_area := []; count_region := [];
       count_sub_continent := []; count_continent := [] |}.

(** The rows of the table of one kind. *)
Definition count_rows (ctype : string) (d : list (string * Z)) : list (list (string * pyval)) :=
  map (fun '(name, n) => [(Str.capitalize ctype, PStr name); ("Count", PInt n)]) d.

(** [make_wiki_table] is taken as given. *)
Definition generate_country_count
    (make_wiki_table : list (list (string * pyval)) -> string)
    (locations : gmap string Place) (capitals : list capital_value) : outcome string :=
  count ← country_counts locations capitals;
  let result := "" in
  let result := result +:+ make_wiki_table (count_rows "province" (count_province count)) in
  let result := result +:+ make_wiki_table (count_rows "area" (count_area count)) in
  let result := result +:+ make_wiki_table (count_rows "region" (count_region count)) in
  let result :=
    result +:+ make_wiki_table (count_rows "sub_continent" (count_sub_continent count)) in
  let result := result +:+ make_wiki_table (count_rows "continent" (count_continent count)) in
  Ok result.

(** ** Location types and section keys of buildings *)

(** The dict [type_names] of [get_building_tables], keyed by the values of
    (city, town, rural_settlement). *)
Definition type_names : gmap (bool * bool * bool) string :=
  list_to_map
    [ ((true, true, true), "common");
      ((false, false, true), "rural");
      ((false, true, false), "town");
      ((true, false, false), "city");
      ((true, true, false), "town+city");
      ((false, true, true), "town+rural");
      ((true, false, true), "city+rural");
      ((false, false, false), "nowhere") ].

(** [type_names[typ]] *)
Definition type_name_of (typ : bool * bool * bool) : outcome string :=
  match type_names !! typ with
  | Some type_name => Ok type_name
  | None => Raise KeyError
  end.

(** The key of a section in [get_building_sections] and
    [generate_building_tables]. *)
Definition building_section_key (type_name category_name : string) : string :=
  "buildings_" +:+ Str.replace_char "+" "_" type_name +:+ "_" +:+ category_name.

(** ** Country flags: [_get_country_display_name] and [_format_country_flags] *)

(** The tag or tags of a country-specific reform. *)
Inductive country_data :=
| OneTag (tag : string)
| Tags (tags : list string).

Section Flags.
Context `{Collaborators}.
(** [self.parser.localize(key)] *)
Variable localize : string -> string.
(** [getattr(self.parser, 'countries_including_formables', None)] *)
Variable countries_including_formables : option (gmap string Country).
Variable parser : Eu5Parser.

Definition _get_country_display_name (country_tag : string) : string :=
  let country_lookup :=
    match countries_including_formables with
    | Some lookup => if bool_decide (lookup = ∅) then countries parser else lookup
    | None => countries parser
    end in
  let norm_tag := Text.upper country_tag in
  match country_lookup !! norm_tag with
  | Some country_obj =>
      Str.strip (hd "" (Text.split "(" (display_name (country_entity country_obj))))
  | None =>
      let localized := localize norm_tag in
      if Str.truthy localized && negb (String.eqb localized norm_tag) then localized
      else norm_tag
  end.

Definition _format_country_flags (country_data : country_data) : string :=
  let countries :=
    match country_data with
    | Tags tags => tags
    | OneTag tag => [tag]
    end in
  let countries := map (Text.removeprefix "c:") countries in
  let flag_list :=
    map (fun country_tag => "{{flag|" +:+ _get_country_display_name country_tag +:+ "}}")
        countries in
  match flag_list with
  | [flag] => flag
  | _ => create_wiki_list flag_list
  end.

End Flags.

(** ** [format_government] *)

Record CountryRank := {
  rank_entity :> NameableEntity;
  get_wiki_link_target : string;
}.

(** A country with the attributes that [format_government] reads; [None]
    stands for an attribute that is missing or [None]. *)
Record CountryStatus := {
  status_country : Country;
  government : option (gmap string string);
  setup_data : option (gmap string string);
  country_rank : option string;
}.

Section Government.
(** [self.parser.localize(key, default=default)] *)
Variable localize_default : string -> string -> string.
(** [self.formatter.resolve_nested_localizations(text)] *)
Variable resolve_nested_localizations : string -> string.
Variable government_types : gmap string NameableEntity.
Variable game_concepts : gmap string NameableEntity.
Variable country_ranks : gmap string CountryRank.

Definition _icon_link_from_text (text : string) : string :=
  "{{icon|" +:+ text +:+ "}} [[" +:+ text +:+ "]]".

(** The block 'Government type'. *)
Definition government_type_step (country : CountryStatus) (parts : list string) : list string :=
  match government country with
  | Some government =>
      match government !! "type" with
      | Some gov_type =>
          match government_types !! gov_type with
          | Some gov_obj => parts ++ ["* " +:+ get_wiki_link_with_icon gov_obj]
          | None =>
              let government_display :=
                resolve_nested_localizations (localize_default gov_type gov_type) in
              parts ++ ["* " +:+ _icon_link_from_text government_display]
          end
      | None => parts
      end
  | None => parts
  end.

(** The block 'Country type'. *)
Definition country_type_step (country : CountryStatus) (parts : list string) : list string :=
  match setup_data country with
  | Some setup_data =>
      match setup_data !! "type" with
      | Some country_type_key =>
          if negb (String.eqb country_type_key "location") then
            match game_concepts !! country_type_key with
            | Some concept =>
                let display := display_name concept in
                let file_name := "Country " +:+ Str.lower country_type_key in
                let link_target := "Country#Country_type" in
                parts ++ ["* [[File:" +:+ file_name +:+ ".png|24px|" +:+ display +:+ "|link="
                            +:+ link_target +:+ "]] [[" +:+ link_target +:+ "|" +:+ display
                            +:+ "]]"]
            | None =>
                let country_type_display :=
                  resolve_nested_localizations
                    (localize_default country_type_key (Str.capitalize country_type_key)) in
                let file_name := "Country " +:+ Str.lower country_type_key in
                let link_target := "Country#Country_type" in
                parts ++ ["* [[File:" +:+ file_name +:+ ".png|24px|" +:+ country_type_display
                            +:+ "|link=" +:+ link_target +:+ "]] [[" +:+ link_target +:+ "|"
                            +:+ country_type_display +:+ "]]"]
            end
          else parts
      | None => parts
      end
  | None => parts
  end.

(** The block 'Country rank'. *)
Definition country_rank_step (country : CountryStatus) (parts : list string) : list string :=
  let rank_key :=
    match country_rank country with
    | Some (String _ _ as country_rank) => country_rank
    | _ => infer_country_rank_key (status_country country)
    end in
  if Str.truthy rank_key then
    match country_ranks !! rank_key with
    | Some rank_obj =>
        let display := display_name (rank_entity rank_obj) in
        let link_target := get_wiki_link_target rank_obj in
        let file_name := "Rank " +:+ Str.lower display in
        parts ++ ["* [[File:" +:+ file_name +:+ ".png|24px|" +:+ display +:+ "|link="
                    +:+ link_target +:+ "]] [[" +:+ link_target +:+ "|" +:+ display +:+ "]]"]
    | None =>
        let rank_display := resolve_nested_localizations (localize_default rank_key rank_key) in
        let file_name := "Rank " +:+ Str.lower rank_display in
        let page := "Country rank" in
        let anchor := rank_display in
        parts ++ ["* [[File:" +:+ file_name +:+ ".png|24px|" +:+ anchor +:+ "|link=" +:+ page
                    +:+ "#" +:+ anchor +:+ "]] [[" +:+ page +:+ "#" +:+ anchor +:+ "|"
                    +:+ anchor +:+ "]]"]
    end
  else parts.

Definition format_government (country : CountryStatus) : string :=
  let parts := [] in
  let parts := government_type_step country parts in
  let parts := country_type_step country parts in
  let parts := country_rank_step country parts in
  match parts with
  | [] => ""
  | _ :: _ => Str.nl +:+ Str.join Str.nl parts
  end.

End Government.

(** ** [generate_concept_tables] *)

(** A game concept with the attributes [family] and [is_alias], which
    [get_concept_section] does not read. The family is a string, empty for
    a concept that has none. *)
Record ConceptEntry := {
  entry_concept :> Eu5GameConcept;
  family : string;
  is_alias : bool;
}.

(** [attrgetter('family', 'display_name')(a) < attrgetter(...)(b)]: tuples
    compare by their first differing component, strings by code points. *)
Definition key_lt (a b : ConceptEntry) : bool :=
  if String.eqb (family a) (family b)
  then String.ltb (display_name (concept_entity a)) (display_name (concept_entity b))
  else String.ltb (family a) (family b).

(** [sorted(values, key=...)]: a stable sort, here by insertion. *)
Fixpoint insert_sorted (x : ConceptEntry) (l : list ConceptEntry) : list ConceptEntry :=
  match l with
  | [] => [x]
  | y :: l' => if key_lt y x then y :: insert_sorted x l' else x :: y :: l'
  end.

Fixpoint sorted (l : list ConceptEntry) : list ConceptEntry :=
  match l with
  | [] => []
  | x :: l' => insert_sorted x (sorted l')
  end.

Section ConceptTables.
Context `{Collaborators}.

(** The body of the loop over the concepts; the state is [family] and
    [result]. *)
Definition concept_step (all_concept_names : list string)
    (state : option string * list string) (concept : ConceptEntry)
  : option string * list string :=
  let '(family_seen, result) := state in
  if is_alias concept then (family_seen, result)
  else
    let '(family_seen, result) :=
      if negb (bool_decide (Some (family concept) = family_seen)) then
        let family_seen := family concept in
        (Some family_seen,
         result ++ ["== " +:+ (if Str.truthy family_seen then family_seen
                               else "Uncategorized") +:+ " =="])
      else (family_seen, result) in
    (family_seen, result ++ get_concept_section all_concept_names concept).

(** [self.parser.game_concepts] is a dict, given by its items in order. *)
Definition generate_concept_tables (game_concepts : list (string * ConceptEntry))
  : list string :=
  let concepts := sorted (map snd game_concepts) in
  let result := [] in
  let family_seen := None in
  let all_concept_names :=
    map fst game_concepts
      ++ map (fun concept : ConceptEntry => display_name (concept_entity concept)) concepts in
  snd (foldl (concept_step all_concept_names) (family_seen, result) concepts).

End ConceptTables.

(** * Specification-side definitions *)

(** ** [merge_multiple_sections] *)


(** A content is blank when it is empty or made of whitespace only. *)
Definition blank (content : string) : Prop := Str.all_space content = true.


(** ** [_format_time_to_implement] *)

(** The number of full years contained in an amount of days, weeks or
    months; a negative amount contains none. *)
Definition full_years (amount per_year : Z) : Z := Z.max 0 amount `div` per_year.

(** The components of a duration in display order, each with its unit. *)
Definition components (d w m y : Z) : list (Z * string) :=
  [(y, " years"); (m, " months"); (w, " weeks"); (d, " days")].

Definition render_component (c : Z * string) : string := Str.of_Z c.1 +:+ c.2.

Definition positive_components (d w m y : Z) : list string :=
  map render_component (List.filter (fun c => 0 <? c.1) (components d w m y)).

Definition mk_policy (d w m y : Z) : LawPolicy :=
  {| policy_entity := {| name := "policy"; display_name := "Policy";
                         get_wiki_link_with_icon := "" |};
     days := d; weeks := w; months := m; years := y;
     gold := None; manpower := None; allow_member_annexation := None;
     can_build_buildings_in_members := None; can_build_rgos_in_members := None;
     can_build_roads_in_members := None; has_parliament := None |}.

(** ** [infer_country_rank_key] *)

(** The province read from a location, [None] when the read fails. *)
Definition province_of (loc : Location) : option Province :=
  match province loc with
  | Ok prov => prov
  | Raise _ => None
  end.

(** The provinces referenced by one ownership attribute. *)
Definition attr_provinces (country : Country) (attr : string) : gset Province :=
  match attrs country !! attr with
  | Some (AttrList value) => list_to_set (omap province_of value)
  | _ => ∅
  end.

(** The distinct provinces of a country: the union over the ownership
    attributes. *)
Definition owned_provinces (country : Country) : gset Province :=
  ⋃ (map (attr_provinces country) candidates).

(** ** [get_building_notes] *)

(** The attributes scanned for notes, in the order of the message table. *)
Definition declaration_order : list string :=
  [ "always_add_demands"; "AI_ignore_available_worker_flag"; "AI_optimization_flag_coastal";
    "allow_wrong_startup"; "can_close"; "conversion_religion"; "forbidden_for_estates";
    "increase_per_level_cost"; "in_empty"; "is_foreign"; "lifts_fog_of_war";
    "need_good_relation"; "pop_size_created"; "stronger_power_projection";
    "on_built"; "on_destroyed" ].

(** The live value of an attribute is unequal to its declared default. *)
Definition differs (building : Building) (attribute : string) : bool :=
  match building_attrs building !! attribute, default_values building !! attribute with
  | Some live, Some default => py_ne live default
  | _, _ => false
  end.

(** Every scanned attribute has a live value and a declared default. *)
Definition schema_complete (building : Building) : Prop :=
  Forall (fun attribute => is_Some (building_attrs building !! attribute)
                           /\ is_Some (default_values building !! attribute))
         declaration_order.

(** [in_empty] is one of the three placements the message table knows. *)
Definition in_empty_known (building : Building) : Prop :=
  exists s, building_attrs building !! "in_empty" = Some (PStr s)
            /\ s ∈ ["empty"; "any"; "owned"].

(** ** Boolean cells *)

Definition yes_markup (label : string) : string := "[[File:Yes.png|20px|" +:+ label +:+ "]]".
Definition no_markup (label : string) : string := "[[File:No.png|20px|Not " +:+ label +:+ "]]".

(** A cell with three states: empty for [None], else one of the two icons. *)
Definition tri_state (label : string) (v : option bool) : string :=
  match v with
  | None => ""
  | Some true => yes_markup label
  | Some false => no_markup label
  end.

(** The boolean attributes behind the columns of the law policy table. *)
Definition law_policy_bool_fields (policy : LawPolicy) : list (string * option bool) :=
  [ ("Gold", gold policy);
    ("Manpower", manpower policy);
    ("Allow Member Annexation", allow_member_annexation policy);
    ("Can Build Buildings In Members", can_build_buildings_in_members policy);
    ("Can Build Rgos In Members", can_build_rgos_in_members policy);
    ("Can Build Roads In Members", can_build_roads_in_members policy);
    ("Has Parliament", has_parliament policy) ].

Definition with_gold (v : option bool) : LawPolicy :=
  {| policy_entity := {| name := "policy"; display_name := "Policy";
                         get_wiki_link_with_icon := "" |};
     days := 0; weeks := 0; months := 0; years := 0;
     gold := v; manpower := None; allow_member_annexation := None;
     can_build_buildings_in_members := None; can_build_rgos_in_members := None;
     can_build_roads_in_members := None; has_parliament := None |}.

Definition advance_with (v : option bool) : Advance :=
  {| advance_entity := {| name := "advance"; display_name := "Advance";
                          get_wiki_link_with_icon := "" |};
     allow_children := v |}.

(** ** [get_concept_section] *)

Definition section_begin (key : string) : string :=
  "<section begin=autogenerated_concept_" +:+ key +:+ "/>".
Definition section_end (key : string) : string :=
  "<section end=autogenerated_concept_" +:+ key +:+ "/>".

(** ** [get_country_notes] *)

Definition existence_note : string := "Does not exist in 1337".

(** The ownership attributes tested for the existence note. *)
Definition ownership_attributes : list string :=
  [ "own_control_core"; "own_core"; "own_conquered"; "own_control_conquered";
    "own_control_integrated"; "own_control_colony"; "control" ].

(** An attribute that is absent, or present and empty. *)
Definition absent_or_empty (country : Country) (attr : string) : Prop :=
  attrs country !! attr = None \/ exists v, attrs country !! attr = Some v /\ len v = 0%nat.

(** The country has cores conquered by others and holds nothing itself. *)
Definition lost_everything (country : Country) : Prop :=
  (exists v, attrs country !! "our_cores_conquered_by_others" = Some v /\ (0 < len v)%nat)
  /\ Forall (absent_or_empty country) ownership_attributes.

Definition existence_part (country : Country) : list string :=
  if has_nonempty country "our_cores_conquered_by_others"
     && negb (existsb (has_nonempty country) ownership_attributes)
  then [existence_note] else [].

Definition subject_part (parser : Eu5Parser) (country : Country) : list string :=
  match diplomacy_relationships parser with
  | Some diplo_rels =>
      match overlords diplo_rels !! name country with
      | Some overlord_tag =>
          let subject_type := default "subject" (rel_subject_types diplo_rels !! name country) in
          [ match subject_types parser !! subject_type with
            | Some st => get_wiki_link_with_icon st
            | None => Str.capitalize subject_type
            end
            +:+ " of " +:+
            match countries parser !! overlord_tag with
            | Some overlord_country => get_wiki_link_with_icon (country_entity overlord_country)
            | None => "{{flag|" +:+ overlord_tag +:+ "}}"
            end ]
      | None => []
      end
  | None => []
  end.

(** The organizations a country is a member of, in declaration order. *)
Definition memberships (parser : Eu5Parser) (country : Country) : list string :=
  match diplomacy_relationships parser with
  | Some diplo_rels => default [] (io_members diplo_rels !! name country)
  | None => []
  end.

Definition member_laws (parser : Eu5Parser) : gmap string (gmap string (list string)) :=
  match diplomacy_relationships parser with
  | Some diplo_rels => default ∅ (io_member_laws diplo_rels)
  | None => ∅
  end.

(** The notes one organization contributes. *)
Definition io_notes (parser : Eu5Parser) (country : Country) (io_name : string) : list string :=
  io_step parser country (member_laws parser) [] io_name.

Definition membership_part (parser : Eu5Parser) (country : Country) : list string :=
  concat (map (io_notes parser country) (memberships parser country)).

Definition formable_part (parser : Eu5Parser) (country : Country) : list string :=
  if existsb (fun fc => String.eqb (country_name fc) (name country)) (formable_countries parser)
  then [formable_note] else [].

(** An organization that never gets a membership note. *)
Definition excluded (io_name : string) : Prop :=
  Str.lower io_name ∈ ["catholic_church"; "papacy"].

(** The display name of a branch law: a law policy first, then a law, then
    the key itself in title case. *)
Inductive branch_display (parser : Eu5Parser) (branch_key : string) : string -> Prop :=
| display_of_policy policy :
    law_policies parser !! branch_key = Some policy ->
    branch_display parser branch_key (display_name (policy_entity policy))
| display_of_law law :
    law_policies parser !! branch_key = None ->
    laws parser !! branch_key = Some law ->
    branch_display parser branch_key (display_name law)
| display_of_key :
    law_policies parser !! branch_key = None ->
    laws parser !! branch_key = None ->
    branch_display parser branch_key (Str.title (Str.replace_char "_" " " branch_key)).

(** The branch laws recorded for a member of an organization. *)
Definition branch_laws_of (parser : Eu5Parser) (country : Country) (io_name : string)
  : list string :=
  default [] (default ∅ (member_laws parser !! name country) !! io_name).

Definition branch_note (display : string) : string :=
  "Member of [[File:IO " +:+ Str.lower display
    +:+ ".png|24px]] [[International organization#Hindu Branches|" +:+ display +:+ "]]".

(** The membership notes of one organization, as the notes are described. *)
Inductive io_notes_spec (parser : Eu5Parser) (country : Country) (io_name : string)
  : list string -> Prop :=
| spec_excluded :
    excluded io_name ->
    io_notes_spec parser country io_name []
| spec_unknown :
    ~ excluded io_name ->
    international_organizations parser !! io_name = None ->
    io_notes_spec parser country io_name ["Member of {{iconify|" +:+ io_name +:+ "}}"]
| spec_branch io_obj branch_key others display :
    ~ excluded io_name ->
    international_organizations parser !! io_name = Some io_obj ->
    Str.lower io_name = "hindu_branch" ->
    branch_laws_of parser country io_name = branch_key :: others ->
    branch_display parser branch_key display ->
    display <> "" ->
    io_notes_spec parser country io_name [branch_note display]
| spec_own_name io_obj :
    ~ excluded io_name ->
    international_organizations parser !! io_name = Some io_obj ->
    (Str.lower io_name <> "hindu_branch"
     \/ branch_laws_of parser country io_name = []
     \/ exists branch_key others,
          branch_laws_of parser country io_name = branch_key :: others
          /\ branch_display parser branch_key "") ->
    io_notes_spec parser country io_name ["Member of " +:+ get_wiki_link_with_icon io_obj].

(** ** Samples *)

(** Plain-text stand-ins for the collaborators, to evaluate the generator
    on samples. *)
Definition plain_str (v : pyval) : string :=
  match v with
  | PNone => "None"
  | PBool true => "True"
  | PBool false => "False"
  | PInt z => Str.of_Z z
  | PStr s => s
  | PList _ => "[...]"
  | PObj _ => "<object>"
  end.

Definition plain_collaborators : Collaborators := {|
  create_wiki_list elements :=
    match elements with
    | [] => ""
    | _ => Str.join Str.nl (map (fun element => "* " +:+ element) elements)
    end;
  format_for_wiki := plain_str;
  add_red_green v := "+" +:+ plain_str v +:+ "%";
  format_effect v := match v with PNone => "" | _ => plain_str v end;
  format_localization_text text _ := text;
  obj_str := plain_str;
|}.

(** The declared defaults of the sample buildings. *)
Definition sample_defaults : gmap string pyval :=
  list_to_map
    [ ("always_add_demands", PBool false); ("AI_ignore_available_worker_flag", PBool false);
      ("AI_optimization_flag_coastal", PBool false); ("allow_wrong_startup", PBool false);
      ("can_close", PBool true); ("conversion_religion", PNone);
      ("forbidden_for_estates", PBool false); ("increase_per_level_cost", PInt 0);
      ("in_empty", PStr "owned"); ("is_foreign", PBool false);
      ("lifts_fog_of_war", PBool false); ("need_good_relation", PBool false);
      ("pop_size_created", PInt 0); ("stronger_power_projection", PBool false);
      ("on_built", PNone); ("on_destroyed", PNone) ].

(** A building that creates five pops and cannot be closed. *)
Definition sample_building : Building :=
  {| building_attrs :=
       <["pop_size_created" := PInt 5]> (<["can_close" := PBool false]> sample_defaults);
     default_values := sample_defaults |}.

(** A building with every attribute at its default. *)
Definition default_building : Building :=
  {| building_attrs := sample_defaults; default_values := sample_defaults |}.

(** A building without the attribute conversion_religion. *)
Definition building_without_religion : Building :=
  {| building_attrs := delete "conversion_religion" sample_defaults;
     default_values := sample_defaults |}.

Definition sample_concept : Eu5GameConcept :=
  {| concept_entity := {| name := "concept_prestige"; display_name := "Prestige";
                          get_wiki_link_with_icon := "[[Prestige]]" |};
     description := "Prestige measures renown.";
     alias := [ {| concept_entity := {| name := "concept_fame"; display_name := "Fame";
                                        get_wiki_link_with_icon := "[[Fame]]" |};
                   description := ""; alias := []; concept_str := "Fame" |} ];
     concept_str := "Prestige" |}.

(** The same concept read again; only the description of its alias, which
    the section does not show, differs. *)
Definition sample_concept_again : Eu5GameConcept :=
  {| concept_entity := {| name := "concept_prestige"; display_name := "Prestige";
                          get_wiki_link_with_icon := "[[Prestige]]" |};
     description := "Prestige measures renown.";
     alias := [ {| concept_entity := {| name := "concept_fame"; display_name := "Fame";
                                        get_wiki_link_with_icon := "[[Fame]]" |};
                   description := "See prestige."; alias := []; concept_str := "Fame" |} ];
     concept_str := "Prestige" |}.

(** A country given by its tag and ownership attributes. *)
Definition mk_country (tag : string) (attributes : list (string * country_attr)) : Country :=
  {| country_entity := {| name := tag; display_name := tag;
                          get_wiki_link_with_icon := "{{flag|" +:+ tag +:+ "}}" |};
     attrs := list_to_map attributes |}.

Definition loc (prov : string) : Location := {| province := Ok (Some prov) |}.

(** Five locations in three provinces, one location without a province and
    one whose province cannot be read. *)
Definition three_province_country : Country :=
  mk_country "AAA"
    [ ("own_control_core", AttrList [loc "p1"; loc "p1"; loc "p2"]);
      ("control", AttrList [loc "p2"; loc "p3"; {| province := Ok None |};
                            {| province := Raise AttributeError |}]);
      ("own_core", AttrOther 4) ].

Definition landless_country : Country :=
  mk_country "BBB" [("our_cores_conquered_by_others", AttrList [loc "p9"])].

Definition hindu_org : NameableEntity :=
  {| name := "hindu_branch"; display_name := "Hindu Branch";
     get_wiki_link_with_icon := "{{icon|hindu branch}} [[Hindu Branch]]" |}.

Definition sample_relationships (laws_of_member : list string) : DiplomacyRelationships :=
  {| overlords := {[ "BNG" := "DLH" ]};
     rel_subject_types := {[ "BNG" := "vassal" ]};
     io_members := {[ "BNG" := ["catholic_church"; "hindu_branch"; "hre"] ]};
     io_member_laws := Some {[ "BNG" := {[ "hindu_branch" := laws_of_member ]} ]} |}.

(** A parser with the given organizations and the given branch laws of the
    member BNG. *)
Definition sample_parser (organizations : gmap string NameableEntity)
    (laws_of_member : list string) : Eu5Parser :=
  {| formable_countries := [ {| country_name := "BNG" |} ];
     diplomacy_relationships := Some (sample_relationships laws_of_member);
     subject_types := ∅;
     countries := ∅;
     international_organizations := organizations;
     law_policies := ∅;
     laws := ∅ |}.

Definition bengal : Country :=
  mk_country "BNG" [("our_cores_conquered_by_others", AttrList [loc "p1"])].

(** ** More on strings *)

(** The character occurs in the string. *)
Fixpoint occurs (c : ascii) (s : string) : bool :=
  match s with
  | EmptyString => false
  | String x rest => Ascii.eqb x c || occurs c rest
  end.

Definition lf : ascii := ascii_of_nat 10.

(** A string is trimmed when stripping does not change it. *)
Definition trimmed (payload : string) : Prop := Str.strip payload = payload.

(** A string that does not begin with whitespace. *)
Definition starts_solid (s : string) : Prop :=
  match s with
  | EmptyString => True
  | String c _ => Str.isspace c = false
  end.

(** ** [_nest_wiki_list] *)

(** A bullet of the given depth. *)
Definition bullet (depth : Z) (payload : string) : string :=
  Text.mul "*" depth +:+ " " +:+ payload.

(** The depth of the bullet made from a line. *)
Definition line_depth (line : string) : Z :=
  let leading_stars := Text.len line - Text.len (Text.lstrip_char "*" line) in
  if 0 <? leading_stars then leading_stars else 1.

(** The bullet of a non-blank line: its depth and its payload. *)
Definition line_bullet (extra_depth : Z) (line : string) : string :=
  bullet (line_depth line + extra_depth) (Str.strip (Text.lstrip_char "*" line)).

Definition solid_lines (text : string) : list string :=
  List.filter (fun line => negb (Str.all_space line)) (Text.split lf text).

(** ** Trigger trees *)

Definition tag : string := "has_or_had_tag".

(** The search of [_find_has_or_had_tag_in_trigger] in the items of a list. *)
Fixpoint find_items (items : list node) : option node :=
  match items with
  | [] => None
  | item :: items' =>
      match item with
      | Sub _ =>
          match if_truthy (_find_has_or_had_tag_in_trigger item) with
          | Some result => Some result
          | None => find_items items'
          end
      | _ => find_items items'
      end
  end.

(** The search of [_find_has_or_had_tag_in_trigger] in the entries of a tree. *)
Fixpoint find_entries (entries : list (string * node)) : option node :=
  match entries with
  | [] => None
  | (key, value) :: rest =>
      if String.eqb key "has_or_had_tag" then returned value
      else
        match value with
        | Sub _ =>
            match if_truthy (_find_has_or_had_tag_in_trigger value) with
            | Some result => Some result
            | None => find_entries rest
            end
        | Items items =>
            match find_items items with
            | Some result => Some result
            | None => find_entries rest
            end
        | Leaf _ => find_entries rest
        end
  end.



(** A subtree met by the functions: a value that is a tree, or a tree
    that is an item of a value that is a list. *)
Inductive subtree_of (entries : list (string * node)) : node -> Prop :=
| subtree_value key sub :
    (key, Sub sub) ∈ entries -> subtree_of entries (Sub sub)
| subtree_item key items sub :
    (key, Items items) ∈ entries -> Sub sub ∈ items -> subtree_of entries (Sub sub).

(** The tree holds the value under the key [has_or_had_tag], at the top
    or in a subtree. *)
Inductive holds_tag : node -> node -> Prop :=
| holds_here entries value :
    (tag, value) ∈ entries -> holds_tag (Sub entries) value
| holds_below entries sub value :
    subtree_of entries sub -> holds_tag sub value -> holds_tag (Sub entries) value.




Definition tag_tree : node :=
  Sub [ ("OR", Sub [("has_or_had_tag", Leaf (PStr "c:FRA")); ("is_adult", Leaf (PBool true))]);
        ("AND", Items [Sub [("has_or_had_tag", Leaf (PStr "c:ENG"))]; Leaf (PInt 1)]);
        ("empty", Items []);
        ("x", Leaf (PInt 3)) ].




(** ** [create_cargo_tenplate_calls] *)

(** The item has the key display_name. *)
Definition named (item_data : list (string * pyval)) : Prop :=
  "display_name" ∈ map fst item_data.

(** The lines of the template call of one item. *)
Definition cargo_block `{Collaborators} (template_name display_name : string)
    (item_data : list (string * pyval)) : list string :=
  ["=== " +:+ display_name +:+ " ==="; "{{" +:+ template_name]
    ++ map (fun cv => "|" +:+ cv.1 +:+ "=" +:+ py_format cv.2) item_data
    ++ ["}}"].

(** ** [get_goods_tables] *)

(** The good is shown in a table of the category: it belongs to the
    category and either is a special good (a produced good with a method)
    or has a food value that is not negative. *)
Definition shown {GoodCategory : Type} `{EqDecision GoodCategory} (produced : GoodCategory)
    (category : GoodCategory) (good : Good GoodCategory) : bool :=
  bool_decide (good_category good = category)
  && ((bool_decide (category = produced) && Str.truthy (good_method good))
      || (0 <=? good_food good)).

(** ** [generate_country_count] *)

(** The distinct names of a sequence, in the order of their first
    appearance. *)
Definition first_seen (names : list string) : list string :=
  foldl (fun seen name => if bool_decide (name ∈ seen) then seen else seen ++ [name]) [] names.

(** How often a name occurs in a sequence. *)
Definition occurrences (names : list string) (name : string) : Z :=
  Z.of_nat (length (List.filter (String.eqb name) names)).

(** Every distinct name once, with the number of its occurrences. *)
Definition tally (names : list string) : list (string * Z) :=
  map (fun name => (name, occurrences names name)) (first_seen names).

(** The display names, of one kind, of the places that have one. *)
Definition names_of (kind : Place -> option NameableEntity) (places : list Place)
  : list string :=
  omap (fun place => display_name <$> kind place) places.

(** The locations of the capitals that are counted. *)
Definition counted_places (locations : gmap string Place) (capitals : list capital_value)
  : outcome (list Place) :=
  comprehension (resolve_capital locations) (List.filter capital_truthy capitals).

(** A capital that is the name of no location, or a list whose first name
    is the name of no location. *)
Definition unresolved (locations : gmap string Place) (capital : capital_value) : Prop :=
  match capital with
  | CapName s => s <> "" /\ locations !! s = None
  | CapNames (first :: _) => locations !! first = None
  | _ => False
  end.

(** The counts after the places of some capitals were counted. *)
Definition add_place (count : Counts) (capital : Place) : Counts :=
  {| count_province := count_entity (count_province count) (place_province capital);
     count_area := count_entity (count_area count) (place_area capital);
     count_region := count_entity (count_region count) (place_region capital);
     count_sub_continent :=
       count_entity (count_sub_continent count) (place_sub_continent capital);
     count_continent := count_entity (count_continent count) (place_continent capital) |}.

(** ** Country flags *)


Definition france : Country :=
  {| country_entity := {| name := "FRA"; display_name := "France (FRA) ";
                          get_wiki_link_with_icon := "{{flag|France}}" |};
     attrs := ∅ |}.

Definition flag_parser : Eu5Parser :=
  {| formable_countries := []; diplomacy_relationships := None; subject_types := ∅;
     countries := {[ "FRA" := france ]}; international_organizations := ∅;
     law_policies := ∅; laws := ∅ |}.

(** ** [format_government] *)


Definition unranked_country : CountryStatus :=
  {| status_country := landless_country;
     government := Some {[ "type" := "monarchy" ]};
     setup_data := Some {[ "type" := "location" ]};
     country_rank := None |}.

(** ** [generate_concept_tables] *)

(** Consecutive concepts of one family, with that family. *)
Fixpoint runs (concepts : list ConceptEntry) : list (string * list ConceptEntry) :=
  match concepts with
  | [] => []
  | concept :: rest =>
      match runs rest with
      | (f, members) :: groups =>
          if String.eqb f (family concept) then (f, concept :: members) :: groups
          else (family concept, [concept]) :: (f, members) :: groups
      | [] => [(family concept, [concept])]
      end
  end.

Definition family_heading (f : string) : string :=
  "== " +:+ (if Str.truthy f then f else "Uncategorized") +:+ " ==".

Definition shown_concept (concept : ConceptEntry) : bool := negb (is_alias concept).

Definition family_le (a b : ConceptEntry) : Prop := String.leb (family a) (family b) = true.

Definition key_le (a b : ConceptEntry) : Prop := key_lt b a = false.

(** The names given to [get_concept_section]: the keys, then the display
    names in sorted order. *)
Definition all_concept_names_of (game_concepts : list (string * ConceptEntry)) : list string :=
  let concepts := sorted (map snd game_concepts) in
  map fst game_concepts
    ++ map (fun concept : ConceptEntry => display_name (concept_entity concept)) concepts.

Section ConceptGroups.
Context `{Collaborators}.

(** A heading and the sections of the concepts under it. *)
Definition render_group (all_concept_names : list string)
    (group : string * list ConceptEntry) : list string :=
  family_heading group.1
    :: concat (map (fun concept : ConceptEntry =>
                      get_concept_section all_concept_names concept) group.2).

(** What the loop adds for the concepts that are left. *)
Fixpoint render_from (all_concept_names : list string) (family_seen : option string)
    (concepts : list ConceptEntry) : list string :=
  match concepts with
  | [] => []
  | concept :: rest =>
      if is_alias concept then render_from all_concept_names family_seen rest
      else
        (if bool_decide (Some (family concept) = family_seen) then []
         else [family_heading (family concept)])
        ++ get_concept_section all_concept_names concept
        ++ render_from all_concept_names (Some (family concept)) rest
  end.

End ConceptGroups.

(** Three concepts and an alias, given out of order. *)
Definition plain_concept (key shown_name : string) : Eu5GameConcept :=
  {| concept_entity := {| name := key; display_name := shown_name;
                          get_wiki_link_with_icon := "[[" +:+ shown_name +:+ "]]" |};
     description := shown_name +:+ "."; alias := []; concept_str := shown_name |}.

Definition sample_concepts : list (string * ConceptEntry) :=
  [ ("trade", {| entry_concept := plain_concept "trade" "Trade";
                 family := "Economy"; is_alias := false |});
    ("zeal", {| entry_concept := plain_concept "zeal" "Zeal";
                family := ""; is_alias := false |});
    ("commerce", {| entry_concept := plain_concept "commerce" "Commerce";
                    family := "Economy"; is_alias := true |});
    ("gold", {| entry_concept := plain_concept "gold" "Gold";
                family := "Economy"; is_alias := false |}) ].

(** * Properties *)

(** Closes a decidable closed goal by evaluation. *)
Ltac solve_decide := apply (bool_decide_unpack _); vm_compute; exact I.

(** ** Strings *)

Lemma app_cons (x : ascii) (a b : string) : String x a +:+ b = String x (a +:+ b).
Proof. reflexivity. Qed.

Lemma app_empty_l (b : string) : "" +:+ b = b.
Proof. reflexivity. Qed.

Lemma app_assoc_str (a b c : string) : (a +:+ b) +:+ c = a +:+ b +:+ c.
Proof.
  induction a as [|x a IH]; [done |].
  rewrite !app_cons. by f_equal.
Qed.

Lemma app_empty_inv (a b : string) : a +:+ b = "" -> a = "" /\ b = "".
Proof. destruct a; [done | rewrite app_cons; discriminate]. Qed.

Lemma app_nonempty_r (a b : string) : b <> "" -> a +:+ b <> "".
Proof. intros Hb Heq. by apply app_empty_inv in Heq as [_ ?]. Qed.

Lemma join_empty_inv (sep : string) (parts : list string) :
  Str.join sep parts = "" -> Forall (fun p => p = "") parts.
Proof.
  induction parts as [|p [|q rest] IH]; intros Hj.
  - constructor.
  - simpl in Hj. by repeat constructor.
  - change (p +:+ sep +:+ Str.join sep (q :: rest) = "") in Hj.
    apply app_empty_inv in Hj as [-> Hj].
    apply app_empty_inv in Hj as [_ Hj].
    constructor; [done | by apply IH].
Qed.

Lemma lstrip_all_space (s : string) : Str.all_space s = true -> Str.lstrip s = "".
Proof.
  induction s as [|c s IH]; simpl; [done |].
  intros [Hc Hs]%andb_true_iff. rewrite Hc. by apply IH.
Qed.

Lemma rstrip_empty_iff (s : string) : Str.rstrip s = "" <-> Str.all_space s = true.
Proof.
  induction s as [|c s IH]; simpl; [done |].
  destruct (Str.rstrip s) eqn:Hr.
  - destruct (Str.isspace c); simpl; [tauto |].
    split; discriminate.
  - split; [discriminate |].
    intros [_ Hs]%andb_true_iff. apply IH in Hs. discriminate.
Qed.

Lemma lstrip_suffix_space (s : string) :
  Str.all_space (Str.lstrip s) = true -> Str.all_space s = true.
Proof.
  induction s as [|c s IH]; simpl; [done |].
  destruct (Str.isspace c) eqn:Hc; simpl; [done |].
  by rewrite Hc.
Qed.

(** [content.strip() == ''] holds exactly for blank contents. *)
Lemma strip_empty_iff (s : string) : Str.strip s = "" <-> blank s.
Proof.
  unfold Str.strip, blank. rewrite rstrip_empty_iff. split.
  - apply lstrip_suffix_space.
  - intros Hs. by rewrite lstrip_all_space.
Qed.


(** ** [merge_multiple_sections] *)






(** ** [_format_time_to_implement] *)

Lemma carry_one (amount per_year : Z) :
  0 < per_year ->
  (if per_year <=? amount then (amount `div` per_year, amount `mod` per_year) else (0, amount))
  = (full_years amount per_year, amount - per_year * full_years amount per_year).
Proof.
  intros Hk. unfold full_years. destruct (Z.leb_spec per_year amount) as [Hle | Hlt].
  - rewrite Z.max_r by lia. f_equal.
    pose proof (Z.div_mod amount per_year). lia.
  - destruct (Z.le_gt_cases 0 amount) as [Hpos | Hneg].
    + rewrite Z.max_r by lia. rewrite Z.div_small by lia. f_equal. lia.
    + rewrite Z.max_l by lia. rewrite Z.div_0_l by lia. f_equal. lia.
Qed.

(** What is left of a non-negative amount after the carry is below one year. *)
Lemma carry_remainder (amount per_year : Z) :
  0 < per_year -> 0 <= amount ->
  0 <= amount - per_year * full_years amount per_year < per_year.
Proof.
  intros Hk Ha. unfold full_years. rewrite Z.max_r by lia.
  pose proof (Z.div_mod amount per_year).
  pose proof (Z.mod_pos_bound amount per_year). lia.
Qed.

Lemma carry_overflow_spec (policy : LawPolicy) :
  carry_overflow policy =
    (days policy - 365 * full_years (days policy) 365,
     weeks policy - 52 * full_years (weeks policy) 52,
     months policy - 12 * full_years (months policy) 12,
     years policy + full_years (days policy) 365 + full_years (weeks policy) 52
       + full_years (months policy) 12).
Proof.
  unfold carry_overflow.
  pose proof (carry_one (days policy) 365 eq_refl) as Hd.
  pose proof (carry_one (weeks policy) 52 eq_refl) as Hw.
  pose proof (carry_one (months policy) 12 eq_refl) as Hm.
  destruct (365 <=? days policy), (52 <=? weeks policy), (12 <=? months policy);
    injection Hd as Hd1 Hd2; injection Hw as Hw1 Hw2; injection Hm as Hm1 Hm2;
    cbv zeta iota beta; repeat (apply pair_equal_spec; split); lia.
Qed.

Lemma time_rendering (d w m y : Z) :
  (let result := [] in
   let result := if 0 <? y then result ++ [Str.of_Z y +:+ " years"] else result in
   let result := if 0 <? m then result ++ [Str.of_Z m +:+ " months"] else result in
   let result := if 0 <? w then result ++ [Str.of_Z w +:+ " weeks"] else result in
   let result := if 0 <? d then result ++ [Str.of_Z d +:+ " days"] else result in
   result) = positive_components d w m y.
Proof.
  unfold positive_components, components, render_component. simpl.
  by destruct (0 <? y), (0 <? m), (0 <? w), (0 <? d).
Qed.

Lemma join_rendered_empty (cs : list (Z * string)) :
  Forall (fun c => c.2 <> "") cs ->
  Str.join Str.nl (map render_component cs) = "" -> cs = [].
Proof.
  destruct cs as [|c cs]; [done |].
  intros Hu Hj%join_empty_inv.
  inversion Hu as [|? ? Hc _]; subst. inversion Hj as [|? ? Hr _]; subst.
  by apply app_empty_inv in Hr as [_ ?].
Qed.

Lemma positive_components_empty (d w m y : Z) :
  Str.join Str.nl (positive_components d w m y) = ""
  <-> y <= 0 /\ m <= 0 /\ w <= 0 /\ d <= 0.
Proof.
  unfold positive_components. split.
  - intros Hj. apply join_rendered_empty in Hj.
    + unfold components in Hj. simpl in Hj.
      destruct (Z.ltb_spec 0 y), (Z.ltb_spec 0 m), (Z.ltb_spec 0 w), (Z.ltb_spec 0 d);
        try discriminate; lia.
    + apply Forall_forall. intros c [Hc _]%list_elem_of_In%filter_In.
      unfold components in Hc. simpl in Hc.
      destruct Hc as [<- | [<- | [<- | [<- | []]]]]; discriminate.
  - intros (Hy & Hm & Hw & Hd). unfold components. simpl.
    destruct (Z.ltb_spec 0 y), (Z.ltb_spec 0 m), (Z.ltb_spec 0 w), (Z.ltb_spec 0 d);
      try lia; reflexivity.
Qed.

(** The time cell shows nothing for an all-zero duration, which is not the
    two-year default; and a negative component, though not zero, is not
    shown. *)
Lemma time_cell_empty_without_default :
  (time_to_implement_cell (mk_policy 0 0 0 0) = ""
   /\ carry_overflow (mk_policy 0 0 0 0) = (0, 0, 0, 0)
   /\ ~ (time_to_implement_cell (mk_policy 0 0 0 0) = ""
         <-> exists d w m, carry_overflow (mk_policy 0 0 0 0) = (d, w, m, 2)
                           /\ d = 0 /\ w = 0 /\ m = 0))
  /\ (carry_overflow (mk_policy (-3) 0 0 1) = (-3, 0, 0, 1)
      /\ time_to_implement_cell (mk_policy (-3) 0 0 1) = "1 years").
Proof.
  repeat split; try reflexivity.
  intros [Hcell _]. destruct (Hcell eq_refl) as (d & w & m & Hc & _).
  vm_compute in Hc. discriminate.
Qed.

(** C2 (amended). [_format_time_to_implement], called with a default of two
    years, first moves every full 365 days, every full 52 weeks and every
    full 12 months into the years and keeps the remainders. It returns the
    empty string when the normalized value is exactly two years and nothing
    else; otherwise it returns the strictly positive components in the order
    years, months, weeks, days, one per line. The result is empty exactly
    when the normalized value is that default or has no positive component. *)
Theorem format_time_to_implement_spec (policy : LawPolicy) :
  let d := days policy - 365 * full_years (days policy) 365 in
  let w := weeks policy - 52 * full_years (weeks policy) 52 in
  let m := months policy - 12 * full_years (months policy) 12 in
  let y := years policy + full_years (days policy) 365 + full_years (weeks policy) 52
           + full_years (months policy) 12 in
  carry_overflow policy = (d, w, m, y)
  /\ time_to_implement_cell policy =
       (if bool_decide (y = 2 /\ d = 0 /\ w = 0 /\ m = 0) then ""
        else Str.join Str.nl (positive_components d w m y))
  /\ (time_to_implement_cell policy = ""
      <-> (y = 2 /\ d = 0 /\ w = 0 /\ m = 0) \/ (y <= 0 /\ m <= 0 /\ w <= 0 /\ d <= 0)).
Proof.
  intros d w m y.
  assert (Hc : carry_overflow policy = (d, w, m, y)) by apply carry_overflow_spec.
  assert (Hcell : time_to_implement_cell policy =
            (if bool_decide (y = 2 /\ d = 0 /\ w = 0 /\ m = 0) then ""
             else Str.join Str.nl (positive_components d w m y))).
  { unfold time_to_implement_cell, _format_time_to_implement. rewrite Hc.
    rewrite time_rendering.
    case_bool_decide as Hdef.
    - destruct Hdef as (-> & -> & -> & ->). reflexivity.
    - destruct (_ && _) eqn:Hb; [| reflexivity].
      exfalso. apply Hdef.
      apply andb_true_iff in Hb as [Hy Hb].
      apply andb_true_iff in Hb as [Hb Hm0].
      apply andb_true_iff in Hb as [Hdw Hwm]. lia. }
  split; [exact Hc |]. split; [exact Hcell |].
  rewrite Hcell. case_bool_decide as Hdef.
  - split; [by left | done].
  - rewrite positive_components_empty. split; [by right | by intros [? | ?]].
Qed.

Example days_400_normalizes :
  carry_overflow (mk_policy 400 0 0 0) = (35, 0, 0, 1)
  /\ time_to_implement_cell (mk_policy 400 0 0 0) = "1 years" +:+ Str.nl +:+ "35 days".
Proof. split; reflexivity. Qed.

Example two_years_is_default : time_to_implement_cell (mk_policy 0 0 0 2) = "".
Proof. reflexivity. Qed.

(** ** [infer_country_rank_key] *)

Lemma add_location_loop (value : list Location) (provinces : gset Province) :
  foldl add_location provinces value = provinces ∪ list_to_set (omap province_of value).
Proof.
  revert provinces. induction value as [|loc value IH]; intros provinces; simpl.
  - set_solver.
  - rewrite IH. unfold add_location. fold (province_of loc).
    destruct (province_of loc) as [prov|]; simpl; set_solver.
Qed.

Lemma add_candidate_union (country : Country) (provinces : gset Province) (attr : string) :
  add_candidate country provinces attr = provinces ∪ attr_provinces country attr.
Proof.
  unfold add_candidate, attr_provinces.
  destruct (attrs country !! attr) as [[value | n] |]; [| set_solver | set_solver].
  destruct value as [|loc value]; [simpl; set_solver |].
  change (0 <? length (loc :: value))%nat with true.
  by rewrite add_location_loop.
Qed.

Lemma add_candidate_loop (country : Country) (attributes : list string)
    (provinces : gset Province) :
  foldl (add_candidate country) provinces attributes =
  provinces ∪ ⋃ (map (attr_provinces country) attributes).
Proof.
  revert provinces. induction attributes as [|attr attributes IH]; intros provinces; simpl.
  - set_solver.
  - rewrite IH, add_candidate_union. set_solver.
Qed.

Lemma collect_provinces_union (country : Country) :
  collect_provinces country = owned_provinces country.
Proof.
  unfold collect_provinces, owned_provinces. rewrite add_candidate_loop. set_solver.
Qed.

(** C1. [infer_country_rank_key] classifies a country by the number of
    distinct provinces in the union over the seven ownership attributes:
    0, 1 or 2 give rank_county, 3 to 5 give rank_duchy, 6 to 12 give
    rank_kingdom and more than 12 give rank_empire. It always returns a
    rank; with no province at all the rank is rank_county. *)
Theorem infer_country_rank_key_tiers (country : Country) :
  let n := size (owned_provinces country) in
  let rank := infer_country_rank_key country in
  (n <= 2 /\ rank = "rank_county")%nat
  \/ (3 <= n <= 5 /\ rank = "rank_duchy")%nat
  \/ (6 <= n <= 12 /\ rank = "rank_kingdom")%nat
  \/ (12 < n /\ rank = "rank_empire")%nat.
Proof.
  intros n rank. subst rank. unfold infer_country_rank_key.
  rewrite collect_provinces_union. fold n.
  destruct (Nat.leb_spec n 0); [left; split; [lia | done] |].
  destruct (Nat.leb_spec n 2); [left; split; [lia | done] |].
  destruct (Nat.leb_spec n 5); [right; left; split; [lia | done] |].
  destruct (Nat.leb_spec n 12); [right; right; left; split; [lia | done] |].
  right; right; right. split; [lia | done].
Qed.

(** ** Loops that may raise *)

Lemma bind_raises {A B} (m : outcome A) (k : A -> outcome B) :
  raises m -> raises (m ≫= k).
Proof. intros [e ->]. by exists e. Qed.

Lemma for_each_raises {A S} (body : S -> A -> outcome S) (xs : list A) (x : A) (s : S) :
  x ∈ xs -> (forall s', raises (body s' x)) -> raises (for_each body xs s).
Proof.
  intros Hx Hbad. revert s.
  induction Hx as [x xs | x y xs Hx IH]; intros s; simpl.
  - by apply bind_raises.
  - destruct (body s y) as [s' | e] eqn:Hy; [by apply IH | by exists e].
Qed.

(** ** [get_building_notes] *)

Section GeneratorFacts.
Context `{Collaborators}.

Lemma schema_getattr (building : Building) (attribute : string) :
  schema_complete building -> attribute ∈ declaration_order ->
  exists v, getattr (building_attrs building) attribute = Ok v.
Proof.
  intros Hs Ha. unfold schema_complete in Hs. rewrite Forall_forall in Hs.
  destruct (Hs _ Ha) as [[v Hv] _]. exists v. unfold getattr. by rewrite Hv.
Qed.

Lemma in_empty_word_known (building : Building) :
  in_empty_known building ->
  exists v word, getattr (building_attrs building) "in_empty" = Ok v
                 /\ in_empty_word v = Ok word.
Proof.
  intros (s & Hs & Hin). exists (PStr s). unfold getattr. rewrite Hs.
  repeat (apply elem_of_cons in Hin as [-> | Hin]); [by eexists .. |].
  by apply elem_of_nil in Hin.
Qed.

Lemma messages_keys (building : Building) (messages : list (string * string)) :
  messages_for_non_default_values building = Ok messages ->
  map fst messages = declaration_order.
Proof.
  unfold messages_for_non_default_values.
  destruct (getattr _ "conversion_religion"); simpl; [| discriminate].
  destruct (getattr _ "increase_per_level_cost"); simpl; [| discriminate].
  destruct (getattr _ "in_empty") as [v |]; simpl; [| discriminate].
  destruct (in_empty_word v); simpl; [| discriminate].
  destruct (getattr _ "pop_size_created"); simpl; [| discriminate].
  destruct (getattr _ "on_built"); simpl; [| discriminate].
  destruct (getattr _ "on_destroyed"); simpl; [| discriminate].
  by intros [= <-].
Qed.

Lemma messages_built (building : Building) :
  schema_complete building -> in_empty_known building ->
  exists messages, messages_for_non_default_values building = Ok messages.
Proof.
  intros Hs Hi. unfold messages_for_non_default_values.
  destruct (schema_getattr building "conversion_religion" Hs) as [? ->]; [solve_decide |].
  destruct (schema_getattr building "increase_per_level_cost" Hs) as [? ->]; [solve_decide |].
  destruct (in_empty_word_known building Hi) as (v & word & -> & Hw).
  destruct (schema_getattr building "pop_size_created" Hs) as [? ->]; [solve_decide |].
  destruct (schema_getattr building "on_built" Hs) as [? ->]; [solve_decide |].
  destruct (schema_getattr building "on_destroyed" Hs) as [? ->]; [solve_decide |].
  simpl. rewrite Hw. simpl. by eexists.
Qed.

Lemma notes_step_present (building : Building) (result : list string)
    (item : string * string) :
  is_Some (building_attrs building !! item.1) ->
  is_Some (default_values building !! item.1) ->
  notes_step building result item =
    Ok (if differs building item.1 then result ++ [item.2] else result).
Proof.
  destruct item as [attribute message]; simpl. intros [live Hl] [default Hd].
  unfold notes_step, differs, getattr, getitem. rewrite Hl, Hd. simpl.
  by destruct (py_ne live default).
Qed.

Lemma notes_loop (building : Building) (items : list (string * string))
    (result : list string) :
  Forall (fun item => is_Some (building_attrs building !! item.1)
                      /\ is_Some (default_values building !! item.1)) items ->
  for_each (notes_step building) items result =
    Ok (result ++ map snd (List.filter (fun item => differs building item.1) items)).
Proof.
  intros Hitems. revert result.
  induction Hitems as [| item items [Hl Hd] _ IH]; intros result; simpl.
  - by rewrite app_nil_r.
  - rewrite notes_step_present by done. simpl.
    rewrite IH. destruct (differs building item.1); simpl; [| done].
    by rewrite <- app_assoc.
Qed.

Lemma notes_step_missing (building : Building) (result : list string)
    (item : string * string) :
  building_attrs building !! item.1 = None -> raises (notes_step building result item).
Proof.
  destruct item as [attribute message]; simpl. intros Hl.
  unfold notes_step, getattr. rewrite Hl. by exists AttributeError.
Qed.

(** C3. For a building that has every scanned attribute and a declared
    default for each, [get_building_notes] emits the note of an attribute
    exactly when the live value is unequal to the default; the notes come
    in the order of the message table, from always_add_demands to
    on_destroyed, and are handed as one list to the wiki list helper. *)
Theorem get_building_notes_spec (building : Building) :
  schema_complete building -> in_empty_known building ->
  exists messages,
    messages_for_non_default_values building = Ok messages
    /\ map fst messages = declaration_order
    /\ get_building_notes building =
         Ok (create_wiki_list
               (map snd (List.filter (fun item => differs building item.1) messages))).
Proof.
  intros Hs Hi. destruct (messages_built building Hs Hi) as [messages Hm].
  exists messages. pose proof (messages_keys _ _ Hm) as Hk.
  split; [done |]. split; [done |].
  unfold get_building_notes. rewrite Hm. simpl.
  rewrite notes_loop; [done |].
  unfold schema_complete in Hs. rewrite <- Hk in Hs.
  by apply Forall_map in Hs.
Qed.

(** C5 (amended). [format_modifier_section] returns the empty string for
    an entity that lacks the attribute named by the section. Note
    generation has no such guard: [get_building_notes] raises for a
    building that lacks one of the scanned attributes. *)
Theorem missing_attribute_behaviour (section : string) (entity : gmap string pyval)
    (building : Building) (attribute : string) :
  entity !! section = None ->
  attribute ∈ declaration_order ->
  building_attrs building !! attribute = None ->
  format_modifier_section section entity = Ok ""
  /\ raises (get_building_notes building).
Proof.
  intros He Ha Hb. split.
  - unfold format_modifier_section. by rewrite He.
  - unfold get_building_notes.
    destruct (messages_for_non_default_values building) as [messages | e] eqn:Hm;
      [| by exists e].
    simpl. apply bind_raises.
    pose proof (messages_keys _ _ Hm) as Hk. rewrite <- Hk in Ha.
    apply list_elem_of_fmap in Ha as (item & -> & Hitem).
    apply for_each_raises with (x := item); [done |].
    intros s'. by apply notes_step_missing.
Qed.

End GeneratorFacts.

(** ** Boolean cells *)

(** The alt label of the 'No' icon is the field's label with 'Not ' in
    front, and the advances table shows the 'No' icon for [None]. *)
Lemma no_icon_label_and_unset_advance :
  (law_policy_bool_cells (with_gold (Some false)) !! 0%nat
     = Some ("Gold", "[[File:No.png|20px|Not Gold]]")
   /\ "[[File:No.png|20px|Not Gold]]" <> "[[File:No.png|20px|Gold]]")
  /\ (advances_allow_children_cell (advance_with None)
        = "[[File:No.png|20px|Not Allow Children]]"
      /\ advances_allow_children_cell (advance_with None) <> "").
Proof. repeat split; discriminate. Qed.

(** C4 (amended). Every boolean column of the law policy table has three
    states: [None] gives the empty string, [True] the 'Yes' icon whose alt
    label is the column's label, [False] the 'No' icon whose alt label is
    'Not ' followed by the column's label. The 'Allow Children' column of
    the advances table has no test for [None]: it shows the 'Yes' icon for
    a true value and the 'No' icon otherwise. *)
Theorem boolean_cells_spec (policy : LawPolicy) (advances : Advance) :
  law_policy_bool_cells policy =
    map (fun field => (field.1, tri_state field.1 field.2)) (law_policy_bool_fields policy)
  /\ advances_allow_children_cell advances =
       (if truth (allow_children advances) then yes_markup "Allow Children"
        else no_markup "Allow Children").
Proof.
  split.
  - unfold law_policy_bool_cells, law_policy_bool_fields. simpl.
    destruct (gold policy) as [[] |], (manpower policy) as [[] |],
      (allow_member_annexation policy) as [[] |],
      (can_build_buildings_in_members policy) as [[] |],
      (can_build_rgos_in_members policy) as [[] |],
      (can_build_roads_in_members policy) as [[] |],
      (has_parliament policy) as [[] |]; reflexivity.
  - unfold advances_allow_children_cell. by destruct (truth _).
Qed.

(** ** [get_concept_section] *)

Section ConceptFacts.
Context `{Collaborators}.

(** C9. The last line produced by [get_concept_section] is the content
    between a begin marker and an end marker that carry the same key, the
    concept's name. The output is determined by the list of concept names
    and by what is read from the concept (its text form, name, description
    and alias display names): equal inputs give identical output. *)
Theorem get_concept_section_markers (all_concept_names : list string)
    (concept concept' : Eu5GameConcept) :
  concept_str concept' = concept_str concept ->
  name (concept_entity concept') = name (concept_entity concept) ->
  description concept' = description concept ->
  map (fun a => display_name (concept_entity a)) (alias concept')
    = map (fun a => display_name (concept_entity a)) (alias concept) ->
  last (get_concept_section all_concept_names concept) =
    Some (section_begin (name (concept_entity concept))
            +:+ get_concept_section_contents all_concept_names concept
            +:+ section_end (name (concept_entity concept)))
  /\ get_concept_section all_concept_names concept'
     = get_concept_section all_concept_names concept.
Proof.
  intros Hs Hn Hd Ha. split.
  - unfold get_concept_section. rewrite last_snoc.
    unfold section_begin, section_end. by rewrite !app_assoc_str.
  - unfold get_concept_section, get_concept_section_contents.
    rewrite Hs, Hn, Hd.
    destruct (alias concept') as [|a' l'], (alias concept) as [|a l]; try discriminate.
    + done.
    + by rewrite Ha.
Qed.

End ConceptFacts.

(** ** [get_country_notes] *)

Lemma io_step_acc (parser : Eu5Parser) (country : Country)
    (tbl : gmap string (gmap string (list string))) (notes : list string) (io_name : string) :
  io_step parser country tbl notes io_name = notes ++ io_step parser country tbl [] io_name.
Proof.
  unfold io_step. case_bool_decide; simpl; [by rewrite app_nil_r |].
  destruct (international_organizations parser !! io_name); [| done].
  destruct (String.eqb (Str.lower io_name) "hindu_branch"); [| done].
  by destruct (branch_display_of _ _) as [[|] |].
Qed.

Lemma io_loop (parser : Eu5Parser) (country : Country)
    (tbl : gmap string (gmap string (list string))) (io_names : list string)
    (notes : list string) :
  foldl (io_step parser country tbl) notes io_names =
  notes ++ concat (map (io_step parser country tbl []) io_names).
Proof.
  revert notes. induction io_names as [|io_name io_names IH]; intros notes; simpl.
  - by rewrite app_nil_r.
  - rewrite IH, io_step_acc. by rewrite <- app_assoc.
Qed.

Lemma has_owned_cores_existsb (country : Country) :
  has_nonempty country "own_control_core" || has_nonempty country "own_core"
  || has_nonempty country "own_conquered" || has_nonempty country "own_control_conquered"
  || has_nonempty country "own_control_integrated" || has_nonempty country "own_control_colony"
  || has_nonempty country "control"
  = existsb (has_nonempty country) ownership_attributes.
Proof. simpl. by rewrite orb_false_r, !orb_assoc. Qed.

(** The notes are the four parts, one after the other. *)
Lemma country_notes_parts (parser : Eu5Parser) (country : Country) :
  get_country_notes parser country =
    (existence_part country ++ subject_part parser country
       ++ membership_part parser country ++ formable_part parser country, None).
Proof.
  unfold get_country_notes. rewrite has_owned_cores_existsb.
  unfold existence_part, subject_part, membership_part, formable_part,
    io_notes, memberships, member_laws, existence_note.
  f_equal.
  destruct (has_nonempty country "our_cores_conquered_by_others"
            && negb (existsb (has_nonempty country) ownership_attributes));
    destruct (existsb _ (formable_countries parser));
    destruct (diplomacy_relationships parser) as [diplo_rels |]; try reflexivity;
    destruct (overlords diplo_rels !! name country);
    destruct (io_members diplo_rels !! name country); simpl;
    rewrite ?io_loop; simpl; rewrite <- ?app_assoc, ?app_nil_r; reflexivity.
Qed.

Lemma startswith_app (needle rest : string) :
  Str.startswith needle (needle +:+ rest) = true.
Proof.
  induction needle as [|c needle IH]; [reflexivity |].
  rewrite app_cons. simpl. by rewrite Ascii.eqb_refl.
Qed.

Lemma contains_app (needle before rest : string) :
  Str.contains needle (before +:+ needle +:+ rest) = true.
Proof.
  induction before as [|c before IH].
  - rewrite app_empty_l.
    destruct (needle +:+ rest) eqn:Hs; unfold Str.contains; fold Str.contains;
      rewrite <- Hs, startswith_app; done.
  - rewrite app_cons. simpl. rewrite IH. by rewrite orb_true_r.
Qed.

Lemma has_nonempty_true (country : Country) (attr : string) :
  has_nonempty country attr = true
  <-> exists v, attrs country !! attr = Some v /\ (0 < len v)%nat.
Proof.
  unfold has_nonempty. destruct (attrs country !! attr) as [v |].
  - rewrite Nat.ltb_lt. split; [by exists v | by intros (? & [= <-] & ?)].
  - split; [done | by intros (? & ? & ?)].
Qed.

Lemma has_nonempty_false (country : Country) (attr : string) :
  has_nonempty country attr = false <-> absent_or_empty country attr.
Proof.
  unfold has_nonempty, absent_or_empty. destruct (attrs country !! attr) as [v |].
  - rewrite Nat.ltb_ge. split.
    + intros Hv. right. exists v. split; [done | lia].
    + intros [? | (? & [= <-] & ->)]; [done | lia].
  - split; [by left | done].
Qed.

Lemma none_owned (country : Country) (attributes : list string) :
  existsb (has_nonempty country) attributes = false
  <-> Forall (absent_or_empty country) attributes.
Proof.
  induction attributes as [|attr attributes IH]; simpl.
  - split; [constructor | done].
  - rewrite orb_false_iff, IH, has_nonempty_false, Forall_cons. done.
Qed.

Lemma existence_part_spec (country : Country) :
  (lost_everything country /\ existence_part country = [existence_note])
  \/ (~ lost_everything country /\ existence_part country = []).
Proof.
  unfold existence_part, lost_everything.
  destruct (has_nonempty country "our_cores_conquered_by_others") eqn:Hc,
    (existsb (has_nonempty country) ownership_attributes) eqn:Ho; cbn [andb negb].
  - right. split; [| done]. intros [_ Hn%none_owned]. congruence.
  - left. split; [| done]. split; [by apply has_nonempty_true | by apply none_owned].
  - right. split; [| done]. intros [Hn%has_nonempty_true _]. congruence.
  - right. split; [| done]. intros [Hn%has_nonempty_true _]. congruence.
Qed.

Lemma existence_note_not_subject (parser : Eu5Parser) (country : Country) :
  existence_note ∉ subject_part parser country.
Proof.
  unfold subject_part.
  destruct (diplomacy_relationships parser) as [diplo_rels |]; [| by apply not_elem_of_nil].
  destruct (overlords diplo_rels !! name country); [| by apply not_elem_of_nil].
  intros Hin%list_elem_of_singleton.
  apply (f_equal (Str.contains " of ")) in Hin.
  rewrite contains_app in Hin. vm_compute in Hin. discriminate.
Qed.

Lemma io_notes_prefix (parser : Eu5Parser) (country : Country) (io_name note : string) :
  note ∈ io_notes parser country io_name -> exists rest, note = "Member of " +:+ rest.
Proof.
  unfold io_notes, io_step. case_bool_decide; simpl; [by intros ?%elem_of_nil |].
  destruct (international_organizations parser !! io_name).
  - destruct (String.eqb (Str.lower io_name) "hindu_branch").
    + destruct (branch_display_of _ _) as [[|] |];
        intros ->%list_elem_of_singleton; by eexists.
    + intros ->%list_elem_of_singleton; by eexists.
  - intros ->%list_elem_of_singleton. by eexists.
Qed.

Lemma existence_note_not_membership (parser : Eu5Parser) (country : Country) :
  existence_note ∉ membership_part parser country.
Proof.
  unfold membership_part. intros Hin.
  apply list_elem_of_In, in_concat in Hin as (notes & Hnotes & Hin).
  apply in_map_iff in Hnotes as (io_name & <- & _).
  apply list_elem_of_In, io_notes_prefix in Hin as [rest Hin]. discriminate.
Qed.

Lemma existence_note_not_formable (parser : Eu5Parser) (country : Country) :
  existence_note ∉ formable_part parser country.
Proof.
  unfold formable_part. destruct (existsb _ _); [| by apply not_elem_of_nil].
  intros Hin%list_elem_of_singleton. discriminate.
Qed.

(** C6. The note 'Does not exist in 1337' is among the notes of a country
    exactly when its attribute our_cores_conquered_by_others exists and is
    not empty while each of the seven ownership attributes is absent or
    empty. *)
Theorem existence_note_iff (parser : Eu5Parser) (country : Country) :
  "Does not exist in 1337" ∈ (get_country_notes parser country).1
  <-> lost_everything country.
Proof.
  rewrite country_notes_parts. simpl. fold existence_note.
  rewrite !elem_of_app.
  pose proof (existence_note_not_subject parser country).
  pose proof (existence_note_not_membership parser country).
  pose proof (existence_note_not_formable parser country).
  destruct (existence_part_spec country) as [[Hl ->] | [Hl ->]].
  - split; [done |]. intros _. left. by apply list_elem_of_singleton.
  - split; [| done]. intros [Hin | [? | [? | ?]]]; try done.
    by apply elem_of_nil in Hin.
Qed.

Lemma branch_display_of_spec (parser : Eu5Parser) (branch_key : string) (others : list string) :
  exists display, branch_display_of parser (branch_key :: others) = Some display
                  /\ branch_display parser branch_key display.
Proof.
  unfold branch_display_of.
  destruct (law_policies parser !! branch_key) as [policy |] eqn:Hp.
  - eexists. split; [done |]. by constructor.
  - destruct (laws parser !! branch_key) as [law |] eqn:Hl.
    + eexists. split; [done |]. by constructor.
    + eexists. split; [done |]. by constructor.
Qed.

(** The notes computed for one organization are the notes described. *)
Lemma io_notes_meet_spec (parser : Eu5Parser) (country : Country) (io_name : string) :
  io_notes_spec parser country io_name (io_notes parser country io_name).
Proof.
  unfold io_notes, io_step. case_bool_decide as Hex; simpl.
  { by apply spec_excluded. }
  destruct (international_organizations parser !! io_name) as [io_obj |] eqn:Hio;
    [| by apply spec_unknown].
  destruct (String.eqb_spec (Str.lower io_name) "hindu_branch") as [Hh | Hh];
    [| apply spec_own_name; auto].
  fold (branch_laws_of parser country io_name).
  destruct (branch_laws_of parser country io_name) as [|branch_key others] eqn:Hlaws.
  { simpl. apply spec_own_name; auto. }
  destruct (branch_display_of_spec parser branch_key others) as (display & -> & Hd).
  destruct display as [|c display].
  - apply spec_own_name; [done | done |]. right. right. by exists branch_key, others.
  - simpl. by eapply spec_branch.
Qed.

Lemma branch_display_functional (parser : Eu5Parser) (branch_key d1 d2 : string) :
  branch_display parser branch_key d1 -> branch_display parser branch_key d2 -> d1 = d2.
Proof. destruct 1; destruct 1; congruence. Qed.

(** The description leaves no choice: it fixes the notes of an organization. *)
Lemma io_notes_spec_functional (parser : Eu5Parser) (country : Country) (io_name : string)
    (notes1 notes2 : list string) :
  io_notes_spec parser country io_name notes1 ->
  io_notes_spec parser country io_name notes2 -> notes1 = notes2.
Proof.
  intros H1 H2.
  destruct H1 as [He | He Hio | io_obj key others display He Hio Hh Hlaws Hd Hne
                  | io_obj He Hio Hown];
    destruct H2 as [He' | He' Hio' | io_obj' key' others' display' He' Hio' Hh' Hlaws' Hd' Hne'
                    | io_obj' He' Hio' Hown']; try done; try congruence.
  - rewrite Hlaws in Hlaws'. injection Hlaws' as <- <-.
    by rewrite (branch_display_functional _ _ _ _ Hd Hd').
  - destruct Hown' as [? | [Hnil | (key' & others' & Hlaws' & Hd')]]; [done | congruence |].
    rewrite Hlaws in Hlaws'. injection Hlaws' as <- <-.
    by pose proof (branch_display_functional _ _ _ _ Hd Hd').
  - destruct Hown as [? | [Hnil | (key & others & Hlaws & Hd)]]; [done | congruence |].
    rewrite Hlaws in Hlaws'. injection Hlaws' as <- <-.
    by pose proof (branch_display_functional _ _ _ _ Hd Hd').
Qed.

(** C7 (amended). For every organization in the country's membership list,
    in order: an organization whose lower-cased name is catholic_church or
    papacy gives no note; any other gives exactly one 'Member of' note. The
    note names the organization, except for a hindu_branch organization
    that the parser knows and whose member has a branch law with a
    non-empty display name (a law policy's, else a law's, else the key in
    title case): then the note shows that display name. *)
Theorem membership_notes_spec (parser : Eu5Parser) (country : Country) :
  exists per_io,
    Forall2 (io_notes_spec parser country) (memberships parser country) per_io
    /\ (get_country_notes parser country).1 =
         existence_part country ++ subject_part parser country
           ++ concat per_io ++ formable_part parser country.
Proof.
  exists (map (io_notes parser country) (memberships parser country)). split.
  - apply Forall2_fmap_r, Forall2_same_length_lookup_2; [done |].
    intros i io_name io_name' Hi Hi'. rewrite Hi in Hi'. injection Hi' as <-.
    apply io_notes_meet_spec.
  - by rewrite country_notes_parts.
Qed.

(** C8. The notes of a country are, in this order: the existence note if
    there is one, the subject note if there is one, the membership notes in
    the order of the membership list, and last the formable note, which is
    there exactly when some formable country targets the country's tag. *)
Theorem country_notes_order (parser : Eu5Parser) (country : Country) :
  get_country_notes parser country =
    (existence_part country ++ subject_part parser country
       ++ concat (map (io_notes parser country) (memberships parser country))
       ++ formable_part parser country, None)
  /\ (existence_part country = [existence_note] \/ existence_part country = [])
  /\ (length (subject_part parser country) <= 1)%nat
  /\ ((formable_part parser country = [formable_note]
       /\ exists fc, fc ∈ formable_countries parser /\ country_name fc = name country)
      \/ (formable_part parser country = []
          /\ ~ exists fc, fc ∈ formable_countries parser /\ country_name fc = name country)).
Proof.
  split; [apply country_notes_parts |]. split; [| split].
  - destruct (existence_part_spec country) as [[_ ->] | [_ ->]]; auto.
  - unfold subject_part. destruct (diplomacy_relationships parser) as [diplo_rels |]; [| simpl; lia].
    destruct (overlords diplo_rels !! name country); simpl; lia.
  - unfold formable_part.
    destruct (existsb _ (formable_countries parser)) eqn:Hf.
    + left. split; [done |]. apply existsb_exists in Hf as (fc & Hin & Heq).
      exists fc. split; [by apply list_elem_of_In | by apply String.eqb_eq].
    + right. split; [done |]. intros (fc & Hin & Heq).
      assert (existsb (fun fc => String.eqb (country_name fc) (name country))
                      (formable_countries parser) = true) as Ht.
      { apply existsb_exists. exists fc. split; [by apply list_elem_of_In |].
        by apply String.eqb_eq. }
      congruence.
Qed.

(** ** Samples *)

Lemma get_building_notes_spec_witness :
  schema_complete sample_building /\ in_empty_known sample_building
  /\ exists messages,
       @messages_for_non_default_values plain_collaborators sample_building = Ok messages
       /\ map fst messages = declaration_order
       /\ @get_building_notes plain_collaborators sample_building =
            Ok (@create_wiki_list plain_collaborators
                  (map snd (List.filter (fun item => differs sample_building item.1) messages))).
Proof.
  assert (Hs : schema_complete sample_building) by solve_decide.
  assert (Hi : in_empty_known sample_building).
  { exists "owned". split; [reflexivity | solve_decide]. }
  split; [exact Hs |]. split; [exact Hi |].
  exact (@get_building_notes_spec plain_collaborators sample_building Hs Hi).
Defined.

Example sample_building_notes :
  @get_building_notes plain_collaborators sample_building =
    Ok ("* Cannot be closed" +:+ Str.nl
          +:+ "* Creates 5 pops when building(taken from the capital of the owner)")
  /\ @get_building_notes plain_collaborators default_building = Ok "".
Proof. split; reflexivity. Qed.

(** Note generation stops with an error for a building that lacks a
    scanned attribute. *)
Lemma building_notes_raise_without_attribute :
  building_attrs building_without_religion !! "conversion_religion" = None
  /\ @get_building_notes plain_collaborators building_without_religion = Raise AttributeError
  /\ ~ exists cell, @get_building_notes plain_collaborators building_without_religion = Ok cell.
Proof.
  assert (Hr : @get_building_notes plain_collaborators building_without_religion
               = Raise AttributeError) by reflexivity.
  split; [reflexivity |]. split; [exact Hr |].
  rewrite Hr. intros [cell Hc]. discriminate.
Qed.

Lemma missing_attribute_behaviour_witness :
  (∅ : gmap string pyval) !! "modifier" = None
  /\ "conversion_religion" ∈ declaration_order
  /\ building_attrs building_without_religion !! "conversion_religion" = None
  /\ @format_modifier_section plain_collaborators "modifier" ∅ = Ok ""
  /\ raises (@get_building_notes plain_collaborators building_without_religion).
Proof.
  assert (He : (∅ : gmap string pyval) !! "modifier" = None) by reflexivity.
  assert (Ha : "conversion_religion" ∈ declaration_order) by solve_decide.
  assert (Hb : building_attrs building_without_religion !! "conversion_religion" = None)
    by reflexivity.
  split; [exact He |]. split; [exact Ha |]. split; [exact Hb |].
  exact (@missing_attribute_behaviour plain_collaborators "modifier" ∅
           building_without_religion "conversion_religion" He Ha Hb).
Defined.

Lemma get_concept_section_markers_witness :
  last (@get_concept_section plain_collaborators ["Prestige"] sample_concept) =
    Some (section_begin "concept_prestige"
            +:+ @get_concept_section_contents plain_collaborators ["Prestige"] sample_concept
            +:+ section_end "concept_prestige")
  /\ @get_concept_section plain_collaborators ["Prestige"] sample_concept_again
     = @get_concept_section plain_collaborators ["Prestige"] sample_concept.
Proof.
  exact (@get_concept_section_markers plain_collaborators ["Prestige"]
           sample_concept sample_concept_again eq_refl eq_refl eq_refl eq_refl).
Defined.

Example sample_concept_section :
  @get_concept_section plain_collaborators ["Prestige"] sample_concept =
    [ "=== Prestige ===";
      "{{hatnote|Aliases: Fame}}{{anchor|Fame}}";
      "<section begin=autogenerated_concept_concept_prestige/>Prestige measures renown."
        +:+ "<section end=autogenerated_concept_concept_prestige/>" ].
Proof. reflexivity. Qed.

Example rank_of_samples :
  size (owned_provinces three_province_country) = 3%nat
  /\ infer_country_rank_key three_province_country = "rank_duchy"
  /\ infer_country_rank_key landless_country = "rank_county".
Proof. repeat split; vm_compute; reflexivity. Qed.

Example bengal_notes :
  get_country_notes (sample_parser {[ "hindu_branch" := hindu_org ]} ["shaiva_branch"]) bengal =
    ( [ "Does not exist in 1337";
        "Vassal of {{flag|DLH}}";
        "Member of [[File:IO shaiva branch.png|24px]] "
          +:+ "[[International organization#Hindu Branches|Shaiva Branch]]";
        "Member of {{iconify|hre}}";
        formable_note ], None ).
Proof. vm_compute. reflexivity. Qed.

(** The note of a hindu_branch membership names the organization itself
    when the parser does not know the organization, although the member has
    a branch law, and when the member has no branch law. *)
Lemma hindu_branch_named_by_organization :
  (branch_laws_of (sample_parser ∅ ["shaiva_branch"]) bengal "hindu_branch" = ["shaiva_branch"]
   /\ io_notes (sample_parser ∅ ["shaiva_branch"]) bengal "hindu_branch"
      = ["Member of {{iconify|hindu_branch}}"]
   /\ io_notes (sample_parser ∅ ["shaiva_branch"]) bengal "hindu_branch"
      <> [branch_note "Shaiva Branch"])
  /\ (io_notes (sample_parser {[ "hindu_branch" := hindu_org ]} []) bengal "hindu_branch"
        = ["Member of {{icon|hindu branch}} [[Hindu Branch]]"]
      /\ (get_country_notes (sample_parser {[ "hindu_branch" := hindu_org ]} []) bengal).1
        = [ "Does not exist in 1337"; "Vassal of {{flag|DLH}}";
            "Member of {{icon|hindu branch}} [[Hindu Branch]]";
            "Member of {{iconify|hre}}"; formable_note ]).
Proof.
  repeat split; try (vm_compute; reflexivity).
  vm_compute. discriminate.
Qed.

Example string_helpers :
  Str.join ", " ["a"; "b"; "c"] = "a, b, c"
  /\ Str.strip "  a b  " = "a b"
  /\ Str.of_Z 35 = "35" /\ Str.of_Z 0 = "0" /\ Str.of_Z (-5) = "-5"
  /\ Str.title (Str.replace_char "_" " " "shaiva_branch") = "Shaiva Branch"
  /\ Str.capitalize "vASSAL" = "Vassal"
  /\ Str.lower "Catholic_Church" = "catholic_church".
Proof. repeat split; reflexivity. Qed.

Example merge_sample :
  merge_multiple_sections
    (HeaderList [("Location", "* coastal"); ("Country", "  "); ("", "* always")])
  = "'''Location:'''" +:+ Str.nl +:+ "* coastal" +:+ Str.nl +:+ "* always"
  /\ merge_multiple_sections (HeaderDict [("Location", ""); ("Country", " ")]) = "".
Proof. split; reflexivity. Qed.

Example modifier_section_samples :
  @format_modifier_section plain_collaborators "modifier"
     {[ "modifier" := PList [PObj 1; PObj 2] ]} = Ok ("* <object>" +:+ Str.nl +:+ "* <object>")
  /\ @format_modifier_section plain_collaborators "capital_modifier"
       {[ "modifier" := PList [PObj 1] ]} = Ok "".
Proof. split; reflexivity. Qed.

(** ** More on strings *)

Lemma split_not_nil (sep : ascii) (s : string) : Text.split sep s <> [].
Proof.
  induction s as [|c s IH]; simpl; [done |].
  destruct (Ascii.eqb c sep); [done |]. by destruct (Text.split sep s).
Qed.

Lemma split_pieces (sep : ascii) (s : string) :
  Forall (fun piece => occurs sep piece = false) (Text.split sep s).
Proof.
  induction s as [|c s IH]; simpl; [by repeat constructor |].
  destruct (Ascii.eqb c sep) eqn:Hc; [by constructor |].
  destruct (Text.split sep s) as [|piece pieces]; [by repeat constructor; simpl; rewrite Hc |].
  inversion IH; subst. constructor; [| done]. simpl. by rewrite Hc.
Qed.

Lemma split_without_sep (sep : ascii) (s : string) :
  occurs sep s = false -> Text.split sep s = [s].
Proof.
  induction s as [|c s IH]; simpl; [done |].
  intros [Hc Hs]%orb_false_iff. rewrite Hc, IH; done.
Qed.

Lemma split_app (sep : ascii) (piece rest : string) :
  occurs sep piece = false ->
  Text.split sep (piece +:+ String sep rest) = piece :: Text.split sep rest.
Proof.
  induction piece as [|c piece IH]; intros Hp.
  - rewrite app_empty_l. simpl. by rewrite Ascii.eqb_refl.
  - simpl in Hp. apply orb_false_iff in Hp as [Hc Hp].
    rewrite app_cons. simpl. rewrite Hc, IH; done.
Qed.

(** Splitting what was joined gives the pieces back. *)
Lemma split_join (sep : ascii) (pieces : list string) :
  pieces <> [] -> Forall (fun piece => occurs sep piece = false) pieces ->
  Text.split sep (Str.join (String sep "") pieces) = pieces.
Proof.
  induction pieces as [|p [|q rest] IH]; intros Hne Hall; [done | |].
  - inversion Hall; subst. by apply split_without_sep.
  - inversion Hall as [|? ? Hp Hrest]; subst.
    change (Str.join (String sep "") (p :: q :: rest))
      with (p +:+ String sep "" +:+ Str.join (String sep "") (q :: rest)).
    rewrite app_cons, app_empty_l, split_app by done.
    by rewrite IH.
Qed.

Lemma occurs_app (c : ascii) (a b : string) :
  occurs c (a +:+ b) = occurs c a || occurs c b.
Proof.
  induction a as [|x a IH]; [done |].
  rewrite app_cons. simpl. by rewrite IH, orb_assoc.
Qed.

Lemma occurs_lstrip (c : ascii) (s : string) :
  occurs c s = false -> occurs c (Str.lstrip s) = false.
Proof.
  induction s as [|x s IH]; simpl; [done |].
  intros Hs. destruct (Str.isspace x); [| done].
  apply orb_false_iff in Hs as [_ Hs]. by apply IH.
Qed.

Lemma occurs_rstrip (c : ascii) (s : string) :
  occurs c s = false -> occurs c (Str.rstrip s) = false.
Proof.
  induction s as [|x s IH]; simpl; [done |].
  intros [Hx Hs]%orb_false_iff. specialize (IH Hs).
  destruct (Str.rstrip s) as [|y kept].
  - destruct (Str.isspace x); simpl; [done | by rewrite Hx].
  - simpl. simpl in IH. by rewrite Hx, IH.
Qed.

Lemma occurs_strip (c : ascii) (s : string) :
  occurs c s = false -> occurs c (Str.strip s) = false.
Proof. intros Hs. by apply occurs_rstrip, occurs_lstrip. Qed.

Lemma occurs_lstrip_char (c x : ascii) (s : string) :
  occurs c s = false -> occurs c (Text.lstrip_char x s) = false.
Proof.
  induction s as [|y s IH]; simpl; [done |].
  intros Hs. destruct (Ascii.eqb y x); [| done].
  apply orb_false_iff in Hs as [_ Hs]. by apply IH.
Qed.

Lemma rstrip_idem (s : string) : Str.rstrip (Str.rstrip s) = Str.rstrip s.
Proof.
  induction s as [|c s IH]; simpl; [done |].
  destruct (Str.rstrip s) as [|y kept] eqn:Hr.
  - destruct (Str.isspace c) eqn:Hc; simpl; [done | by rewrite Hc].
  - simpl. simpl in IH. by rewrite IH.
Qed.

Lemma lstrip_starts_solid (s : string) : starts_solid (Str.lstrip s).
Proof.
  induction s as [|c s IH]; simpl; [done |].
  destruct (Str.isspace c) eqn:Hc; [done | by simpl].
Qed.

Lemma lstrip_solid (s : string) : starts_solid s -> Str.lstrip s = s.
Proof. destruct s as [|c s]; simpl; [done |]. by intros ->. Qed.

Lemma rstrip_starts_solid (s : string) : starts_solid s -> starts_solid (Str.rstrip s).
Proof.
  destruct s as [|c s]; simpl; [done |]. intros Hc.
  destruct (Str.rstrip s); [by rewrite Hc | done].
Qed.

Lemma strip_idem (s : string) : Str.strip (Str.strip s) = Str.strip s.
Proof.
  unfold Str.strip.
  rewrite (lstrip_solid (Str.rstrip (Str.lstrip s))).
  - apply rstrip_idem.
  - apply rstrip_starts_solid, lstrip_starts_solid.
Qed.

Lemma text_length_app (a b : string) :
  String.length (a +:+ b) = (String.length a + String.length b)%nat.
Proof. induction a as [|x a IH]; [done |]. rewrite app_cons. simpl. by rewrite IH. Qed.

Lemma length_repeat_char (c : ascii) (n : nat) : String.length (Text.repeat_char c n) = n.
Proof. induction n as [|n IH]; simpl; [done | by rewrite IH]. Qed.

Lemma lstrip_char_repeat (c : ascii) (n : nat) (rest : string) :
  Str.startswith (String c "") rest = false ->
  Text.lstrip_char c (Text.repeat_char c n +:+ rest) = rest.
Proof.
  intros Hr. induction n as [|n IH]; simpl.
  - rewrite app_empty_l. destruct rest as [|x rest]; [done |].
    simpl in *. rewrite Ascii.eqb_sym. by destruct (Ascii.eqb c x).
  - by rewrite Ascii.eqb_refl.
Qed.

(** ** [_nest_wiki_list] *)

(** What one line contributes. *)
Lemma nest_line_acc (extra_depth : Z) (nested_lines : list string) (line : string) :
  nest_line extra_depth nested_lines line = nested_lines ++ nest_line extra_depth [] line.
Proof.
  unfold nest_line. destruct (negb _); [by rewrite app_nil_r | done].
Qed.

Lemma nest_loop (extra_depth : Z) (lines nested_lines : list string) :
  foldl (nest_line extra_depth) nested_lines lines =
  nested_lines ++ concat (map (nest_line extra_depth []) lines).
Proof.
  revert nested_lines. induction lines as [|line lines IH]; intros nested_lines; simpl.
  - by rewrite app_nil_r.
  - rewrite IH, nest_line_acc. by rewrite <- app_assoc.
Qed.

Lemma truthy_strip (line : string) : Str.truthy (Str.strip line) = negb (Str.all_space line).
Proof.
  destruct (Str.all_space line) eqn:Hs.
  - apply strip_empty_iff in Hs. by rewrite Hs.
  - destruct (Str.strip line) eqn:Hl; [| done].
    apply strip_empty_iff in Hl. unfold blank in Hl. congruence.
Qed.

Lemma line_depth_positive (line : string) : 1 <= line_depth line.
Proof. unfold line_depth. destruct (Z.ltb_spec 0 (Text.len line - Text.len (Text.lstrip_char "*" line))); lia. Qed.

Lemma nest_line_blank (extra_depth : Z) (line : string) :
  Str.all_space line = true -> nest_line extra_depth [] line = [].
Proof. intros Hs. unfold nest_line. by rewrite truthy_strip, Hs. Qed.

Lemma nest_line_solid (extra_depth : Z) (line : string) :
  Str.all_space line = false ->
  nest_line extra_depth [] line =
    [bullet (line_depth line + extra_depth) (Str.strip (Text.lstrip_char "*" line))].
Proof. intros Hs. unfold nest_line. by rewrite truthy_strip, Hs. Qed.

Lemma nest_wiki_list_lines (text : string) (extra_depth : Z) :
  _nest_wiki_list text extra_depth = map (line_bullet extra_depth) (solid_lines text).
Proof.
  unfold _nest_wiki_list, solid_lines. fold lf. rewrite nest_loop. simpl.
  induction (Text.split lf text) as [|line lines IH]; simpl; [done |].
  destruct (Str.all_space line) eqn:Hs; simpl.
  - by rewrite nest_line_blank.
  - rewrite nest_line_solid by done. simpl. by rewrite IH.
Qed.

Lemma solid_lines_no_lf (text : string) :
  Forall (fun line => occurs lf line = false) (solid_lines text).
Proof.
  unfold solid_lines. apply Forall_forall. intros line [Hin _]%list_elem_of_In%filter_In.
  pose proof (split_pieces lf text) as Hp. rewrite Forall_forall in Hp.
  by apply Hp, list_elem_of_In.
Qed.

Lemma occurs_repeat_other (c x : ascii) (n : nat) :
  Ascii.eqb x c = false -> occurs c (Text.repeat_char x n) = false.
Proof. intros Hx. induction n as [|n IH]; simpl; [done | by rewrite Hx]. Qed.

Lemma line_bullet_no_lf (extra_depth : Z) (line : string) :
  occurs lf line = false -> occurs lf (line_bullet extra_depth line) = false.
Proof.
  intros Hl. unfold line_bullet, bullet, Text.mul.
  rewrite !occurs_app, occurs_repeat_other by done.
  rewrite occurs_strip by (by apply occurs_lstrip_char). done.
Qed.


Lemma all_space_bullet (depth : Z) (payload : string) :
  1 <= depth -> Str.all_space (bullet depth payload) = false.
Proof.
  intros Hd. unfold bullet, Text.mul.
  destruct (Z.to_nat depth) as [|n] eqn:Hn; [lia |]. done.
Qed.

Lemma line_depth_bullet (depth : Z) (payload : string) :
  1 <= depth -> line_depth (bullet depth payload) = depth.
Proof.
  intros Hd. unfold line_depth, bullet, Text.mul.
  rewrite lstrip_char_repeat by done.
  unfold Text.len. rewrite text_length_app, length_repeat_char.
  destruct (Z.ltb_spec 0 (Z.of_nat (Z.to_nat depth + String.length (" " +:+ payload))
                          - Z.of_nat (String.length (" " +:+ payload)))); lia.
Qed.

(** Nesting a bullet again adds to its depth and keeps its payload. *)
Lemma line_bullet_bullet (extra_depth depth : Z) (payload : string) :
  1 <= depth -> trimmed payload ->
  line_bullet extra_depth (bullet depth payload) = bullet (depth + extra_depth) payload.
Proof.
  intros Hd Hp. unfold line_bullet. rewrite line_depth_bullet by done.
  f_equal. unfold bullet at 1, Text.mul. rewrite lstrip_char_repeat by done.
  exact Hp.
Qed.

Lemma all_space_line_bullet (extra_depth : Z) (line : string) :
  0 <= extra_depth -> Str.all_space (line_bullet extra_depth line) = false.
Proof.
  intros He. pose proof (line_depth_positive line).
  unfold line_bullet. apply all_space_bullet. lia.
Qed.

Lemma line_bullet_twice (a b : Z) (line : string) :
  0 <= a -> line_bullet b (line_bullet a line) = line_bullet (a + b) line.
Proof.
  intros Ha. pose proof (line_depth_positive line).
  unfold line_bullet at 2. rewrite line_bullet_bullet; [| lia | apply strip_idem].
  unfold line_bullet. f_equal. lia.
Qed.

(** X2. Nesting the joined result of a nesting by a non-negative depth
    is the same as nesting the text once by the sum of the two depths. *)
Theorem nest_wiki_list_compose (text : string) (a b : Z) :
  0 <= a ->
  _nest_wiki_list (Str.join Str.nl (_nest_wiki_list text a)) b = _nest_wiki_list text (a + b).
Proof.
  intros Ha. rewrite (nest_wiki_list_lines text a), (nest_wiki_list_lines text (a + b)).
  destruct (solid_lines text) as [|line lines] eqn:Hlines; [reflexivity |].
  rewrite <- Hlines.
  rewrite nest_wiki_list_lines. unfold solid_lines at 1.
  change Str.nl with (String lf "").
  rewrite split_join.
  - clear Hlines. induction (solid_lines text) as [|l ls IH]; [done |].
    cbn [map List.filter]. rewrite all_space_line_bullet by done.
    cbn [negb map]. by rewrite IH, line_bullet_twice.
  - rewrite Hlines. done.
  - apply Forall_map, Forall_forall. intros l Hl. apply line_bullet_no_lf.
    pose proof (solid_lines_no_lf text) as Hlf. rewrite Forall_forall in Hlf. by apply Hlf.
Qed.

Lemma occurs_app_l (c : ascii) (a b : string) :
  occurs c (a +:+ b) = false -> occurs c a = false /\ occurs c b = false.
Proof. rewrite occurs_app. apply orb_false_iff. Qed.


Lemma nest_wiki_list_compose_witness :
  0 <= 1
  /\ _nest_wiki_list (Str.join Str.nl (_nest_wiki_list ("* a" +:+ Str.nl +:+ " b ") 1)) 2
     = _nest_wiki_list ("* a" +:+ Str.nl +:+ " b ") (1 + 2).
Proof.
  assert (H01 : 0 <= 1) by lia.
  split; [exact H01 |].
  exact (nest_wiki_list_compose ("* a" +:+ Str.nl +:+ " b ") 1 2 H01).
Defined.


Example nest_sample :
  _nest_wiki_list ("* a" +:+ Str.nl +:+ Str.nl +:+ "** b  " +:+ Str.nl +:+ "plain"
                     +:+ Str.nl +:+ " * c") 1
  = ["** a"; "*** b"; "** plain"; "** * c"].
Proof. reflexivity. Qed.

(** ** Trigger trees *)

Lemma find_sub (entries : list (string * node)) :
  _find_has_or_had_tag_in_trigger (Sub entries) = find_entries entries.
Proof. reflexivity. Qed.


Lemma node_ind2 (P : node -> Prop) :
  (forall v, P (Leaf v)) ->
  (forall items, Forall P items -> P (Items items)) ->
  (forall entries, Forall (fun e => P e.2) entries -> P (Sub entries)) ->
  forall n, P n.
Proof.
  intros Hleaf Hitems Hsub. fix IH 1. intros [v | items | entries].
  - apply Hleaf.
  - apply Hitems. induction items as [|item items IHitems]; constructor; [apply IH | done].
  - apply Hsub. induction entries as [|[key value] entries IHentries]; constructor;
      [apply IH | done].
Qed.

(** Induction over the subtrees that the functions visit. *)
Lemma subtree_ind (P : node -> Prop) :
  (forall v, P (Leaf v)) ->
  (forall items, P (Items items)) ->
  (forall entries, (forall sub, subtree_of entries sub -> P sub) -> P (Sub entries)) ->
  forall n, P n.
Proof.
  intros Hleaf Hitems Hsub n.
  cut (P n /\ forall items, n = Items items -> forall sub, Sub sub ∈ items -> P (Sub sub)).
  { tauto. }
  induction n as [v | items IH | entries IH] using node_ind2.
  - split; [apply Hleaf | done].
  - split; [apply Hitems |]. intros ? [= <-] sub Hin.
    rewrite Forall_forall in IH. by apply IH.
  - split; [| done]. apply Hsub. intros sub Hsubtree.
    rewrite Forall_forall in IH.
    destruct Hsubtree as [key sub Hin | key items sub Hin Hitem].
    + by apply (IH _ Hin).
    + destruct (IH _ Hin) as [_ Hi]. by eapply Hi.
Qed.

Lemma subtree_of_cons (e : string * node) (entries : list (string * node)) (sub : node) :
  subtree_of entries sub -> subtree_of (e :: entries) sub.
Proof.
  destruct 1 as [key sub Hin | key items sub Hin Hitem].
  - eapply subtree_value. by right.
  - eapply subtree_item; [by right | done].
Qed.

Lemma if_truthy_some (result : option node) (v : node) :
  if_truthy result = Some v -> result = Some v.
Proof. destruct result as [r |]; simpl; [| done]. by destruct (node_truthy r). Qed.

Lemma returned_some (value v : node) : returned value = Some v -> value = v.
Proof. destruct value as [[] | |]; simpl; congruence. Qed.

Lemma find_items_some (items : list node) (v : node) :
  find_items items = Some v ->
  exists sub, Sub sub ∈ items /\ _find_has_or_had_tag_in_trigger (Sub sub) = Some v.
Proof.
  induction items as [|item items IH]; simpl; [done |].
  destruct item as [x | xs | sub].
  - intros (sub & Hin & Hf)%IH. exists sub. split; [by right | done].
  - intros (sub & Hin & Hf)%IH. exists sub. split; [by right | done].
  - destruct (if_truthy _) as [r |] eqn:Hr.
    + intros [= <-]. exists sub. split; [by left | by apply if_truthy_some].
    + intros (sub' & Hin & Hf)%IH. exists sub'. split; [by right | done].
Qed.

Lemma find_entries_some (entries : list (string * node)) (v : node) :
  find_entries entries = Some v ->
  (tag, v) ∈ entries
  \/ exists sub, subtree_of entries sub /\ _find_has_or_had_tag_in_trigger sub = Some v.
Proof.
  induction entries as [|[key value] rest IH]; simpl; [done |].
  assert (Hrest : find_entries rest = Some v ->
    (tag, v) ∈ (key, value) :: rest
    \/ exists sub, subtree_of ((key, value) :: rest) sub
                   /\ _find_has_or_had_tag_in_trigger sub = Some v).
  { intros [Hin | (sub & Hs & Hf)]%IH; [left; by right |].
    right. exists sub. split; [by apply subtree_of_cons | done]. }
  destruct (String.eqb_spec key "has_or_had_tag") as [-> | Hkey].
  { intros ->%returned_some. left. by left. }
  destruct value as [x | items | sub]; [done | |].
  - destruct (find_items items) as [r |] eqn:Hr; [| done].
    intros [= <-]. apply find_items_some in Hr as (sub & Hin & Hf).
    right. exists (Sub sub). split; [| done].
    eapply subtree_item; [by left | done].
  - destruct (if_truthy _) as [r |] eqn:Hr; [| done].
    intros [= <-]. apply if_truthy_some in Hr.
    right. exists (Sub sub). split; [| done]. eapply subtree_value. by left.
Qed.

Lemma find_returns_held (trigger_tree value : node) :
  _find_has_or_had_tag_in_trigger trigger_tree = Some value ->
  holds_tag trigger_tree value.
Proof.
  revert value.
  induction trigger_tree as [v | items | entries IH] using subtree_ind;
    intros value Hfind; [done | done |].
  rewrite find_sub in Hfind.
  apply find_entries_some in Hfind as [Hin | (sub & Hsub & Hf)].
  - by apply holds_here.
  - eapply holds_below; [done |]. by apply IH.
Qed.

(** X4. What [_find_has_or_had_tag_in_trigger] returns is a value stored
    under the key has_or_had_tag, in the tree itself or in a subtree that
    is a value of a tree or an item of a list value. *)
Theorem find_tag_sound (trigger_tree value : node) :
  _find_has_or_had_tag_in_trigger trigger_tree = Some value ->
  holds_tag trigger_tree value.
Proof. apply find_returns_held. Qed.























Lemma find_tag_sound_witness :
  _find_has_or_had_tag_in_trigger tag_tree = Some (Leaf (PStr "c:FRA"))
  /\ holds_tag tag_tree (Leaf (PStr "c:FRA")).
Proof.
  assert (Hf : _find_has_or_had_tag_in_trigger tag_tree = Some (Leaf (PStr "c:FRA")))
    by reflexivity.
  split; [exact Hf |]. exact (find_tag_sound tag_tree (Leaf (PStr "c:FRA")) Hf).
Defined.

Example find_sample : _find_has_or_had_tag_in_trigger tag_tree = Some (Leaf (PStr "c:FRA")).
Proof. reflexivity. Qed.

Example filter_sample :
  _filter_has_or_had_tag tag_tree =
    Sub [ ("OR", Sub [("is_adult", Leaf (PBool true))]);
          ("AND", Items [Leaf (PInt 1)]);
          ("x", Leaf (PInt 3)) ].
Proof. reflexivity. Qed.



(** X8. A country returned by [_get_country_from_reform] is a true value
    stored under has_or_had_tag in the reform's allow, potential or locked
    trigger. *)
Theorem country_from_reform_sound (reform : GovernmentReform) (countries : node) :
  _get_country_from_reform reform = Some countries ->
  node_truthy countries = true
  /\ (holds_tag (reform_allow reform) countries
      \/ holds_tag (reform_potential reform) countries
      \/ holds_tag (reform_locked reform) countries).
Proof.
  assert (Hone : forall trigger_obj rest,
    match trigger_obj with
    | Leaf PNone => rest
    | _ => match if_truthy (_find_has_or_had_tag_in_trigger trigger_obj) with
           | Some c => Some c
           | None => rest
           end
    end = Some countries ->
    (node_truthy countries = true /\ holds_tag trigger_obj countries)
    \/ rest = Some countries).
  { intros trigger_obj rest Hm.
    destruct (if_truthy (_find_has_or_had_tag_in_trigger trigger_obj)) as [c |] eqn:Hc.
    - assert (Hcc : c = countries \/ rest = Some countries).
      { destruct trigger_obj as [[] | |]; simpl in *; try (left; congruence); by right. }
      destruct Hcc as [-> | ?]; [| by right]. left.
      pose proof (if_truthy_some _ _ Hc) as Hf. split; [| by apply find_returns_held].
      unfold if_truthy in Hc. rewrite Hf in Hc. by destruct (node_truthy countries).
    - right. by destruct trigger_obj as [[] | |]. }
  unfold _get_country_from_reform. intros Hr.
  apply Hone in Hr as [[? ?] | Hr]; [tauto |].
  apply Hone in Hr as [[? ?] | Hr]; [tauto |].
  apply Hone in Hr as [[? ?] | Hr]; [tauto | done].
Qed.

Lemma country_from_reform_sound_witness :
  _get_country_from_reform
    {| reform_allow := Leaf PNone; reform_potential := tag_tree; reform_locked := Leaf PNone |}
    = Some (Leaf (PStr "c:FRA"))
  /\ node_truthy (Leaf (PStr "c:FRA")) = true
  /\ (holds_tag (Leaf PNone) (Leaf (PStr "c:FRA"))
      \/ holds_tag tag_tree (Leaf (PStr "c:FRA"))
      \/ holds_tag (Leaf PNone) (Leaf (PStr "c:FRA"))).
Proof.
  assert (Hr : _get_country_from_reform
    {| reform_allow := Leaf PNone; reform_potential := tag_tree; reform_locked := Leaf PNone |}
    = Some (Leaf (PStr "c:FRA"))) by reflexivity.
  split; [exact Hr |].
  exact (country_from_reform_sound _ _ Hr).
Defined.

(** ** [create_cargo_tenplate_calls] *)

Lemma item_get_named (item_data : list (string * pyval)) (key : string) :
  key ∈ map fst item_data <-> exists v, item_get item_data key = Ok v.
Proof.
  induction item_data as [|[k v] rest IH]; simpl.
  - split; [by intros ?%elem_of_nil | by intros [? ?]].
  - destruct (String.eqb_spec k key) as [-> | Hne].
    + split; [by exists v | intros _; by left].
    + rewrite <- IH. split; [| by right].
      intros [? | ?]%elem_of_cons; [congruence | done].
Qed.

Lemma item_get_missing (item_data : list (string * pyval)) (key : string) :
  key ∉ map fst item_data -> item_get item_data key = Raise KeyError.
Proof.
  induction item_data as [|[k v] rest IH]; simpl; [done |].
  intros [Hne Hrest]%not_elem_of_cons.
  destruct (String.eqb_spec k key) as [-> | _]; [done | by apply IH].
Qed.

Section CargoFacts.
Context `{Collaborators}.

Lemma column_lines (item_data : list (string * pyval)) (lines : list string) :
  foldl (fun lines cv => lines ++ ["|" +:+ cv.1 +:+ "=" +:+ py_format cv.2]) lines item_data
  = lines ++ map (fun cv => "|" +:+ cv.1 +:+ "=" +:+ py_format cv.2) item_data.
Proof.
  revert lines. induction item_data as [|cv rest IH]; intros lines; simpl.
  - by rewrite app_nil_r.
  - rewrite IH. by rewrite <- app_assoc.
Qed.

Lemma cargo_item_named (template_name : string) (lines : list string)
    (item_data : list (string * pyval)) (v : pyval) :
  item_get item_data "display_name" = Ok v ->
  cargo_item template_name lines item_data =
    Ok (lines ++ cargo_block template_name (py_format v) item_data).
Proof.
  intros Hv. unfold cargo_item, cargo_block. rewrite Hv. simpl.
  rewrite column_lines. by rewrite <- !app_assoc.
Qed.

Lemma cargo_loop_named (template_name : string) (data : list (list (string * pyval)))
    (lines : list string) :
  Forall named data ->
  exists blocks,
    for_each (cargo_item template_name) data lines = Ok (lines ++ concat blocks)
    /\ Forall2 (fun item_data block =>
                  exists v, item_get item_data "display_name" = Ok v
                            /\ block = cargo_block template_name (py_format v) item_data)
               data blocks.
Proof.
  intros Hall. revert lines.
  induction Hall as [|item_data data Hitem _ IH]; intros lines.
  - exists []. split; [by rewrite app_nil_r | constructor].
  - apply item_get_named in Hitem as [v Hv]. simpl.
    rewrite (cargo_item_named _ _ _ v Hv). simpl.
    destruct (IH (lines ++ cargo_block template_name (py_format v) item_data))
      as (blocks & Hloop & Hblocks).
    exists (cargo_block template_name (py_format v) item_data :: blocks).
    split; [by rewrite Hloop; simpl; rewrite <- app_assoc |].
    constructor; [by exists v | done].
Qed.

Lemma cargo_loop_unnamed (template_name : string) (data : list (list (string * pyval)))
    (lines : list string) :
  Exists (fun item_data => ~ named item_data) data ->
  for_each (cargo_item template_name) data lines = Raise KeyError.
Proof.
  intros Hex. revert lines.
  induction data as [|item_data data IH]; intros lines; [by inversion Hex |].
  simpl. destruct (decide (named item_data)) as [Hn | Hn].
  - destruct (proj1 (item_get_named _ _) Hn) as [v Hv].
    rewrite (cargo_item_named _ _ _ v Hv). simpl.
    apply IH. by inversion Hex.
  - unfold cargo_item. by rewrite item_get_missing.
Qed.

(** X9. [create_cargo_tenplate_calls] raises [KeyError] exactly when some
    item has no key display_name. Otherwise its result is the join, by line
    feeds, of one block per item in order: a heading with the item's
    display name, the opening of the template call, one line per column and
    the closing braces; so the empty list gives the empty string. *)
Theorem cargo_calls_spec (data : list (list (string * pyval))) (template_name : string) :
  (Exists (fun item_data => ~ named item_data) data
   /\ create_cargo_tenplate_calls data template_name = Raise KeyError)
  \/ (Forall named data
      /\ exists blocks,
           create_cargo_tenplate_calls data template_name
             = Ok (Str.join Str.nl (concat blocks))
           /\ Forall2 (fun item_data block =>
                         exists v, item_get item_data "display_name" = Ok v
                                   /\ block = cargo_block template_name (py_format v) item_data
                                   /\ length block = (3 + length item_data)%nat)
                      data blocks).
Proof.
  unfold create_cargo_tenplate_calls.
  destruct (decide (Forall named data)) as [Hall | Hsome].
  - right. split; [done |].
    destruct (cargo_loop_named template_name data [] Hall) as (blocks & -> & Hblocks).
    exists blocks. split; [done |].
    eapply Forall2_impl; [exact Hblocks |].
    intros item_data block (v & Hv & ->). exists v. split; [done |]. split; [done |].
    unfold cargo_block. rewrite !length_app, length_map. simpl. lia.
  - left. apply not_Forall_Exists in Hsome; [| apply _].
    split; [done |]. by rewrite cargo_loop_unnamed.
Qed.

End CargoFacts.

Example cargo_sample :
  @create_cargo_tenplate_calls plain_collaborators
    [[("name", PStr "mill"); ("display_name", PStr "Mill"); ("city", PInt 1)]] "Building"
  = Ok ("=== Mill ===" +:+ Str.nl +:+ "{{Building" +:+ Str.nl +:+ "|name=mill" +:+ Str.nl
          +:+ "|display_name=Mill" +:+ Str.nl +:+ "|city=1" +:+ Str.nl +:+ "}}")
  /\ @create_cargo_tenplate_calls plain_collaborators [] "Building" = Ok "".
Proof. split; reflexivity. Qed.

(** ** [get_goods_tables] *)

Lemma filter_split_perm {A} (p q : A -> bool) (l : list A) :
  (forall x, p x && q x = false) ->
  List.filter p l ++ List.filter q l ≡ₚ List.filter (fun x => p x || q x) l.
Proof.
  intros Hpq. induction l as [|x l IH]; simpl; [done |].
  specialize (Hpq x). destruct (p x), (q x); simpl in *; try done.
  - by rewrite IH.
  - rewrite <- Permutation_middle. by rewrite IH.
Qed.

Lemma filter_filter_and {A} (p q : A -> bool) (l : list A) :
  List.filter p (List.filter q l) = List.filter (fun x => q x && p x) l.
Proof.
  induction l as [|x l IH]; simpl; [done |].
  destruct (q x); simpl; [| done]. destruct (p x); by rewrite IH.
Qed.

Section GoodsFacts.
Context {GoodCategory : Type} `{EqDecision GoodCategory}.
Variable produced : GoodCategory.

Lemma split_by_method_filters (goods : list (Good GoodCategory)) :
  split_by_method goods =
    (List.filter (fun good => Str.truthy (good_method good)) goods,
     List.filter (fun good => negb (Str.truthy (good_method good))) goods).
Proof.
  unfold split_by_method.
  cut (forall special plain,
    foldl (fun '(special_goods, goods_in_category_without_method) good =>
             if Str.truthy (good_method good)
             then (special_goods ++ [good], goods_in_category_without_method)
             else (special_goods, goods_in_category_without_method ++ [good]))
          (special, plain) goods
    = (special ++ List.filter (fun good => Str.truthy (good_method good)) goods,
       plain ++ List.filter (fun good => negb (Str.truthy (good_method good))) goods)).
  { intros Hgen. by rewrite Hgen. }
  induction goods as [|good goods IH]; intros special plain; simpl.
  - by rewrite !app_nil_r.
  - destruct (Str.truthy (good_method good)); simpl; rewrite IH, <- app_assoc; done.
Qed.

(** X10. For every category, the three lists that [get_goods_tables]
    turns into tables (plain goods, food, special goods) hold, together,
    each good of the category once, except the goods with a negative food
    value that are not special: these are in no list. *)
Theorem goods_lists_partition (goods : list (Good GoodCategory)) (category : GoodCategory) :
  let '(plain, food, special) := goods_lists produced goods category in
  plain ++ food ++ special ≡ₚ List.filter (shown produced category) goods.
Proof.
  unfold goods_lists.
  set (in_category := List.filter _ goods).
  case_bool_decide as Hp.
  - rewrite split_by_method_filters. subst in_category.
    rewrite app_assoc, !filter_filter_and.
    rewrite filter_split_perm.
    2:{ intros x. destruct (bool_decide _), (Str.truthy _); simpl; [done | | done | done].
        destruct (Z.eqb_spec (good_food x) 0), (Z.ltb_spec 0 (good_food x)); simpl; lia. }
    rewrite filter_split_perm.
    2:{ intros x. by destruct (bool_decide _), (Str.truthy _), (_ =? _), (_ <? _). }
    erewrite filter_ext; [done |]. intros x. unfold shown.
    rewrite (bool_decide_eq_true_2 (category = produced)) by done.
    destruct (bool_decide _), (Str.truthy _); simpl; try done;
      destruct (Z.eqb_spec (good_food x) 0), (Z.ltb_spec 0 (good_food x)),
        (Z.leb_spec 0 (good_food x)); simpl; try done; lia.
  - rewrite app_nil_r. subst in_category.
    rewrite !filter_filter_and, filter_split_perm.
    2:{ intros x. destruct (bool_decide _); simpl; [| done].
        destruct (Z.eqb_spec (good_food x) 0), (Z.ltb_spec 0 (good_food x)); simpl; lia. }
    erewrite filter_ext; [done |]. intros x. unfold shown.
    rewrite (bool_decide_eq_false_2 (category = produced)) by done.
    destruct (bool_decide _); simpl; [| done].
    destruct (Z.eqb_spec (good_food x) 0), (Z.ltb_spec 0 (good_food x)),
      (Z.leb_spec 0 (good_food x)); simpl; try done; lia.
Qed.

End GoodsFacts.

(** ** [generate_country_count] *)

Lemma first_seen_snoc (names : list string) (x : string) :
  first_seen (names ++ [x]) =
    if bool_decide (x ∈ first_seen names) then first_seen names else first_seen names ++ [x].
Proof. unfold first_seen. by rewrite foldl_snoc. Qed.

Lemma first_seen_elem (names : list string) (x : string) :
  x ∈ first_seen names <-> x ∈ names.
Proof.
  induction names as [|y names IH] using rev_ind; [done |].
  rewrite first_seen_snoc, elem_of_app, list_elem_of_singleton.
  case_bool_decide as Hy.
  - rewrite IH. split; [by left |]. intros [? | ->]; [done | by apply IH].
  - by rewrite elem_of_app, list_elem_of_singleton, IH.
Qed.

Lemma first_seen_nodup (names : list string) : NoDup (first_seen names).
Proof.
  induction names as [|y names IH] using rev_ind; [constructor |].
  rewrite first_seen_snoc. case_bool_decide as Hy; [done |].
  apply NoDup_app. split; [done |]. split; [| apply NoDup_singleton].
  by intros x Hx ->%list_elem_of_singleton.
Qed.

Lemma occurrences_snoc (names : list string) (x name : string) :
  occurrences (names ++ [x]) name
  = occurrences names name + (if String.eqb name x then 1 else 0).
Proof.
  unfold occurrences. rewrite List.filter_app, length_app. simpl.
  destruct (String.eqb name x); simpl; lia.
Qed.

Lemma occurrences_absent (names : list string) (name : string) :
  name ∉ names -> occurrences names name = 0.
Proof.
  unfold occurrences. induction names as [|y names IH]; simpl; [done |].
  intros [Hne Hrest]%not_elem_of_cons.
  destruct (String.eqb_spec name y); [done | by apply IH].
Qed.

Lemma add_one_absent (d : list (string * Z)) (name : string) :
  name ∉ map fst d -> add_one d name = d.
Proof.
  induction d as [|[k n] rest IH]; simpl; [done |].
  intros [Hne Hrest]%not_elem_of_cons.
  destruct (String.eqb_spec k name); [done | by rewrite IH].
Qed.

Lemma add_one_map (f : string -> Z) (keys : list string) (x : string) :
  NoDup keys ->
  add_one (map (fun name => (name, f name)) keys) x
  = map (fun name => (name, f name + (if String.eqb name x then 1 else 0))) keys.
Proof.
  induction 1 as [|k keys Hk Hnd IH]; simpl; [done |].
  destruct (String.eqb_spec k x) as [-> | Hne].
  - f_equal. apply map_ext_in. intros name Hin%list_elem_of_In.
    destruct (String.eqb_spec name x) as [-> | _]; [done |]. by rewrite Z.add_0_r.
  - rewrite Z.add_0_r, IH. done.
Qed.

Lemma add_one_fresh (d : list (string * Z)) (name : string) (n : Z) :
  name ∉ map fst d -> add_one (d ++ [(name, n)]) name = d ++ [(name, n + 1)].
Proof.
  induction d as [|[k m] rest IH]; simpl.
  - intros _. by rewrite String.eqb_refl.
  - intros [Hne Hrest]%not_elem_of_cons.
    destruct (String.eqb_spec k name); [done | by rewrite IH].
Qed.

Lemma tally_keys (names : list string) : map fst (tally names) = first_seen names.
Proof. unfold tally. rewrite map_map. simpl. apply map_id. Qed.

Lemma count_name_tally (names : list string) (x : string) :
  count_name (tally names) x = tally (names ++ [x]).
Proof.
  unfold count_name. rewrite tally_keys. unfold tally at 3.
  rewrite first_seen_snoc. case_bool_decide as Hx.
  - unfold tally. rewrite add_one_map by apply first_seen_nodup.
    apply map_ext. intros name. by rewrite occurrences_snoc.
  - rewrite add_one_fresh by (by rewrite tally_keys).
    rewrite map_app. simpl. f_equal.
    + unfold tally. apply map_ext_in. intros name Hin%list_elem_of_In.
      rewrite occurrences_snoc.
      destruct (String.eqb_spec name x) as [-> | _]; [done | by rewrite Z.add_0_r].
    + rewrite occurrences_snoc, String.eqb_refl, occurrences_absent; [done |].
      by rewrite <- first_seen_elem.
Qed.

(** Counting the names one after the other gives their tally. *)
Lemma count_names_tally (names : list string) : foldl count_name [] names = tally names.
Proof.
  induction names as [|x names IH] using rev_ind; [done |].
  by rewrite foldl_snoc, IH, count_name_tally.
Qed.

Lemma count_entities_names (kind : Place -> option NameableEntity) (places : list Place)
    (d : list (string * Z)) :
  foldl (fun d place => count_entity d (kind place)) d places
  = foldl count_name d (names_of kind places).
Proof.
  revert d. induction places as [|place places IH]; intros d; [done |].
  simpl. rewrite IH. unfold names_of. simpl.
  by destruct (kind place).
Qed.

Lemma count_capital_skipped (locations : gmap string Place) (count : Counts)
    (capital : capital_value) :
  capital_truthy capital = false -> count_capital locations count capital = Ok count.
Proof. intros Ht. unfold count_capital. by rewrite Ht. Qed.

Lemma count_capital_counted (locations : gmap string Place) (count : Counts)
    (capital : capital_value) :
  capital_truthy capital = true ->
  count_capital locations count capital =
    place ← resolve_capital locations capital; Ok (add_place count place).
Proof. intros Ht. unfold count_capital. by rewrite Ht. Qed.

Lemma count_loop_places (locations : gmap string Place) (capitals : list capital_value)
    (count : Counts) :
  for_each (count_capital locations) capitals count =
    places ← counted_places locations capitals; Ok (foldl add_place count places).
Proof.
  unfold counted_places. revert count.
  induction capitals as [|capital capitals IH]; intros count; [done |].
  cbn [for_each List.filter].
  destruct (capital_truthy capital) eqn:Ht.
  - rewrite count_capital_counted by done. cbn [comprehension].
    destruct (resolve_capital locations capital) as [place | e]; [| done].
    cbn. rewrite IH. by destruct (comprehension _ _).
  - rewrite count_capital_skipped by done. cbn. apply IH.
Qed.

Lemma add_places_kind (places : list Place) (count : Counts) :
  foldl add_place count places =
    {| count_province :=
         foldl (fun d place => count_entity d (place_province place)) (count_province count)
               places;
       count_area :=
         foldl (fun d place => count_entity d (place_area place)) (count_area count) places;
       count_region :=
         foldl (fun d place => count_entity d (place_region place)) (count_region count)
               places;
       count_sub_continent :=
         foldl (fun d place => count_entity d (place_sub_continent place))
               (count_sub_continent count) places;
       count_continent :=
         foldl (fun d place => count_entity d (place_continent place)) (count_continent count)
               places |}.
Proof.
  revert count. induction places as [|place places IH]; intros count; [by destruct count |].
  simpl. by rewrite IH.
Qed.

Lemma country_counts_tally (locations : gmap string Place) (capitals : list capital_value) :
  country_counts locations capitals =
    places ← counted_places locations capitals;
    Ok {| count_province := tally (names_of place_province places);
          count_area := tally (names_of place_area places);
          count_region := tally (names_of place_region places);
          count_sub_continent := tally (names_of place_sub_continent places);
          count_continent := tally (names_of place_continent places) |}.
Proof.
  unfold country_counts. rewrite count_loop_places.
  destruct (counted_places locations capitals) as [places | e]; simpl; [| done].
  rewrite add_places_kind. simpl.
  by rewrite !count_entities_names, !count_names_tally.
Qed.

(** X11. [generate_country_count] counts, for each of the five kinds of
    entity, the capitals of the countries that have one: if every capital
    that is set leads to a location, the table of a kind has one row for
    each display name, in the order of first appearance, with the number of
    capitals that lie in it, and the result is the five tables one after
    the other; else the first failure is raised. *)
Theorem generate_country_count_spec
    (make_wiki_table : list (list (string * pyval)) -> string)
    (locations : gmap string Place) (capitals : list capital_value) :
  generate_country_count make_wiki_table locations capitals =
    places ← counted_places locations capitals;
    Ok (make_wiki_table (count_rows "province" (tally (names_of place_province places)))
        +:+ make_wiki_table (count_rows "area" (tally (names_of place_area places)))
        +:+ make_wiki_table (count_rows "region" (tally (names_of place_region places)))
        +:+ make_wiki_table
              (count_rows "sub_continent" (tally (names_of place_sub_continent places)))
        +:+ make_wiki_table (count_rows "continent" (tally (names_of place_continent places)))).
Proof.
  unfold generate_country_count. rewrite country_counts_tally.
  destruct (counted_places locations capitals) as [places | e]; simpl; [| done].
  by rewrite app_empty_l, !app_assoc_str.
Qed.

Lemma resolve_unresolved (locations : gmap string Place) (capital : capital_value) :
  capital_truthy capital = true ->
  (unresolved locations capital /\ resolve_capital locations capital = Raise AttributeError)
  \/ (~ unresolved locations capital /\ exists place, resolve_capital locations capital = Ok place).
Proof.
  destruct capital as [| s | [| first names] | place]; simpl; try done.
  - intros Hs. destruct (locations !! s) as [place |] eqn:Hl.
    + right. split; [by intros [_ ?] | by exists place].
    + left. split; [| done]. split; [| done]. by intros ->.
  - intros _. destruct (locations !! first) as [place |] eqn:Hl.
    + right. split; [congruence | by exists place].
    + by left.
  - intros _. right. split; [tauto | by exists place].
Qed.

Lemma unresolved_truthy (locations : gmap string Place) (capital : capital_value) :
  unresolved locations capital -> capital_truthy capital = true.
Proof.
  destruct capital as [| s | [| first names] | place]; simpl; try done.
  intros [Hs _]. by destruct s.
Qed.

Lemma counted_places_unresolved (locations : gmap string Place)
    (capitals : list capital_value) :
  (Exists (unresolved locations) capitals
   /\ counted_places locations capitals = Raise AttributeError)
  \/ (Forall (fun capital => ~ unresolved locations capital) capitals
      /\ exists places, counted_places locations capitals = Ok places).
Proof.
  unfold counted_places.
  induction capitals as [|capital capitals IH]; simpl.
  { right. split; [constructor | by exists []]. }
  destruct (capital_truthy capital) eqn:Ht; simpl.
  - destruct (resolve_unresolved locations capital Ht) as [[Hu ->] | [Hu [place ->]]]; simpl.
    + left. split; [by left | done].
    + destruct IH as [[Hex ->] | [Hall [places ->]]]; simpl.
      * left. split; [by right | done].
      * right. split; [by constructor | by eexists].
  - assert (Hu : ~ unresolved locations capital).
    { intros Hu%unresolved_truthy. congruence. }
    destruct IH as [[Hex ->] | [Hall [places ->]]].
    + left. split; [by right | done].
    + right. split; [by constructor | by eexists].
Qed.

(** X12. [generate_country_count] fails exactly when the capital of some
    country is the name of no location (or a list whose first name is the
    name of no location); it then raises [AttributeError] and returns no
    table. Countries without a capital are skipped. *)
Theorem country_count_error (make_wiki_table : list (list (string * pyval)) -> string)
    (locations : gmap string Place) (capitals : list capital_value) :
  (Exists (unresolved locations) capitals
   /\ generate_country_count make_wiki_table locations capitals = Raise AttributeError)
  \/ (Forall (fun capital => ~ unresolved locations capital) capitals
      /\ exists result, generate_country_count make_wiki_table locations capitals = Ok result).
Proof.
  unfold generate_country_count, country_counts. rewrite count_loop_places.
  destruct (counted_places_unresolved locations capitals) as [[Hex ->] | [Hall [places ->]]].
  - by left.
  - right. split; [done |]. simpl. by eexists.
Qed.

Example count_sample :
  foldl count_name [] ["a"; "b"; "a"; "c"; "a"] = [("a", 3); ("b", 1); ("c", 1)]
  /\ tally ["a"; "b"; "a"; "c"; "a"] = [("a", 3); ("b", 1); ("c", 1)].
Proof. split; reflexivity. Qed.

(** ** Location types and section keys of buildings *)

Lemma replace_char_removes (old new : ascii) (s : string) :
  Ascii.eqb new old = false -> occurs old (Str.replace_char old new s) = false.
Proof.
  intros Hne. unfold Str.replace_char. induction s as [|c s IH]; simpl; [done |].
  destruct (Ascii.eqb c old) eqn:Hc; simpl; by rewrite ?Hne, ?Hc, IH.
Qed.

(** X13. Every combination of the flags city, town and rural settlement
    has a location type name, so the lookup never raises; different
    combinations have different names, also once '+' is replaced by '_' for
    the section key; and the section key of a building table has no '+'
    when the name of the category has none. *)
Theorem building_section_keys (typ typ' : bool * bool * bool) (category_name : string) :
  exists type_name type_name',
    type_name_of typ = Ok type_name /\ type_name_of typ' = Ok type_name'
    /\ (Str.replace_char "+" "_" type_name = Str.replace_char "+" "_" type_name'
        <-> typ = typ')
    /\ occurs "+" (building_section_key type_name category_name) = occurs "+" category_name.
Proof.
  assert (Hkey : forall type_name,
    occurs "+" (building_section_key type_name category_name) = occurs "+" category_name).
  { intros type_name. unfold building_section_key.
    rewrite !occurs_app, replace_char_removes by done. done. }
  destruct typ as [[[] []] []], typ' as [[[] []] []];
    (eexists; eexists; split; [reflexivity |]; split; [reflexivity |];
     split; [split; [intros Heq; vm_compute in Heq; congruence | intros [= ]; try done]
            | apply Hkey]).
Qed.

(** ** Country flags *)

Lemma upper_char_idem (c : ascii) : Str.upper_char (Str.upper_char c) = Str.upper_char c.
Proof. by destruct c as [[] [] [] [] [] [] [] []]. Qed.

Lemma upper_idem (s : string) : Text.upper (Text.upper s) = Text.upper s.
Proof.
  unfold Text.upper. induction s as [|c s IH]; simpl; [done |].
  by rewrite upper_char_idem, IH.
Qed.

Lemma drop_app (a b : string) : Text.drop (String.length a) (a +:+ b) = b.
Proof. induction a as [|c a IH]; [done |]. by rewrite app_cons. Qed.

Lemma removeprefix_app (prefix s : string) : Text.removeprefix prefix (prefix +:+ s) = s.
Proof. unfold Text.removeprefix. by rewrite startswith_app, drop_app. Qed.


Section FlagFacts.
Context `{Collaborators}.
Variable localize : string -> string.
Variable countries_including_formables : option (gmap string Country).
Variable parser : Eu5Parser.

(** X14. The letter case of a tag does not matter for its display name,
    and for a tag written with the prefix 'c:' the flag is the flag of the
    tag without the prefix. *)
Theorem country_tag_normalized (country_tag : string) :
  _get_country_display_name localize countries_including_formables parser
    (Text.upper country_tag)
  = _get_country_display_name localize countries_including_formables parser country_tag
  /\ _format_country_flags localize countries_including_formables parser
       (OneTag ("c:" +:+ country_tag))
     = "{{flag|"
         +:+ _get_country_display_name localize countries_including_formables parser
               country_tag
         +:+ "}}".
Proof.
  split.
  - unfold _get_country_display_name. by rewrite upper_idem.
  - unfold _format_country_flags. cbn [map]. by rewrite removeprefix_app.
Qed.


End FlagFacts.


Example flags_sample :
  @_format_country_flags plain_collaborators (fun key => key) None flag_parser (OneTag "c:fra")
    = "{{flag|France}}"
  /\ @_format_country_flags plain_collaborators (fun key => key) None flag_parser
       (Tags ["c:FRA"; "c:eng"])
     = "* {{flag|France}}" +:+ Str.nl +:+ "* {{flag|ENG}}".
Proof. split; reflexivity. Qed.

(** ** [format_government] *)



Section GovernmentFacts.
Variable localize_default : string -> string -> string.
Variable resolve_nested_localizations : string -> string.
Variable government_types : gmap string NameableEntity.
Variable game_concepts : gmap string NameableEntity.
Variable country_ranks : gmap string CountryRank.






End GovernmentFacts.

Example government_sample :
  format_government (fun key default => default) (fun text => text) ∅ ∅ ∅ unranked_country
  = Str.nl +:+ "* {{icon|monarchy}} [[monarchy]]" +:+ Str.nl
      +:+ "* [[File:Rank rank_county.png|24px|rank_county|link=Country rank#rank_county]] "
      +:+ "[[Country rank#rank_county|rank_county]]".
Proof. vm_compute. reflexivity. Qed.

(** ** [generate_concept_tables] *)

Lemma str_compare_refl (s : string) : String.compare s s = Eq.
Proof.
  induction s as [|c s IH]; simpl; [done |].
  unfold Ascii.compare. by rewrite N.compare_refl.
Qed.

Lemma str_compare_lt_trans (a b c : string) :
  String.compare a b = Lt -> String.compare b c = Lt -> String.compare a c = Lt.
Proof.
  revert b c. induction a as [|x a IH]; intros [|y b] [|z c]; simpl; try done.
  unfold Ascii.compare.
  destruct (N.compare_spec (N_of_ascii x) (N_of_ascii y)) as [Hxy | Hxy | Hxy]; [| | done];
    destruct (N.compare_spec (N_of_ascii y) (N_of_ascii z)) as [Hyz | Hyz | Hyz]; try done.
  - rewrite Hxy, Hyz, N.compare_refl. apply IH.
  - intros _ _. rewrite Hxy. by apply N.compare_lt_iff in Hyz as ->.
  - intros _ _. rewrite <- Hyz. by apply N.compare_lt_iff in Hxy as ->.
  - intros _ _. by rewrite (proj2 (N.compare_lt_iff _ _) (N.lt_trans _ _ _ Hxy Hyz)).
Qed.

Lemma str_leb_lt_or_eq (a b : string) :
  String.leb a b = true <-> String.compare a b = Lt \/ a = b.
Proof.
  unfold String.leb. split.
  - destruct (String.compare a b) eqn:Hc; [| by left | done].
    right. by apply String.compare_eq_iff.
  - intros [-> | ->]; [done |]. by rewrite str_compare_refl.
Qed.

Lemma str_leb_trans (a b c : string) :
  String.leb a b = true -> String.leb b c = true -> String.leb a c = true.
Proof.
  rewrite !str_leb_lt_or_eq. intros [Hab | ->] [Hbc | ->]; try (by left); try (by right).
  left. by eapply str_compare_lt_trans.
Qed.

Lemma str_ltb_false_leb (a b : string) : String.ltb a b = false <-> String.leb b a = true.
Proof.
  unfold String.ltb, String.leb. rewrite (String.compare_antisym a b).
  by destruct (String.compare b a).
Qed.

Lemma key_le_family (a b : ConceptEntry) : key_le a b -> family_le a b.
Proof.
  unfold key_le, key_lt, family_le.
  destruct (String.eqb_spec (family b) (family a)) as [-> | Hne].
  - intros _. apply str_leb_lt_or_eq. by right.
  - by intros ?%str_ltb_false_leb.
Qed.

Lemma key_le_total (a b : ConceptEntry) : key_lt a b = true -> key_le a b.
Proof.
  unfold key_le, key_lt. rewrite (String.eqb_sym (family b)).
  destruct (String.eqb (family a) (family b)); unfold String.ltb;
    rewrite (String.compare_antisym _ _);
    by match goal with |- context [CompOpp ?c] => destruct c end.
Qed.

Lemma key_le_trans (a b c : ConceptEntry) : key_le a b -> key_le b c -> key_le a c.
Proof.
  unfold key_le, key_lt.
  destruct (String.eqb_spec (family b) (family a)) as [Hba | Hba];
    destruct (String.eqb_spec (family c) (family b)) as [Hcb | Hcb];
    destruct (String.eqb_spec (family c) (family a)) as [Hca | Hca];
    try congruence; intros H1 H2; apply str_ltb_false_leb;
    apply str_ltb_false_leb in H1; apply str_ltb_false_leb in H2;
    first [ by eapply str_leb_trans | congruence
          | exfalso; apply Hba; apply String.leb_antisym; congruence ].
Qed.

Lemma insert_sorted_perm (x : ConceptEntry) (l : list ConceptEntry) :
  insert_sorted x l ≡ₚ x :: l.
Proof.
  induction l as [|y l IH]; simpl; [done |].
  destruct (key_lt y x); [| done]. rewrite IH. apply perm_swap.
Qed.

Lemma sorted_perm (l : list ConceptEntry) : sorted l ≡ₚ l.
Proof.
  induction l as [|x l IH]; simpl; [done |]. by rewrite insert_sorted_perm, IH.
Qed.

Lemma insert_sorted_sorted (x : ConceptEntry) (l : list ConceptEntry) :
  StronglySorted key_le l -> StronglySorted key_le (insert_sorted x l).
Proof.
  induction 1 as [|y l Hl IH Hy]; simpl; [repeat constructor |].
  destruct (key_lt y x) eqn:Hyx.
  - constructor; [done |]. rewrite insert_sorted_perm. constructor; [| done].
    by apply key_le_total.
  - constructor; [by constructor |]. constructor; [done |].
    eapply Forall_impl; [exact Hy |]. intros z Hz. by eapply key_le_trans.
Qed.

Lemma sorted_sorted (l : list ConceptEntry) : StronglySorted key_le (sorted l).
Proof.
  induction l as [|x l IH]; simpl; [constructor |]. by apply insert_sorted_sorted.
Qed.

Lemma sorted_by_family (l : list ConceptEntry) :
  StronglySorted key_le l -> StronglySorted family_le l.
Proof.
  induction 1 as [|x l Hl IH Hx]; constructor; [done |].
  eapply Forall_impl; [exact Hx |]. intros y. apply key_le_family.
Qed.

Lemma filter_strongly_sorted (p : ConceptEntry -> bool) (l : list ConceptEntry) :
  StronglySorted family_le l -> StronglySorted family_le (List.filter p l).
Proof.
  induction 1 as [|x l Hl IH Hx]; simpl; [constructor |].
  destruct (p x); [| done]. constructor; [done |].
  apply Forall_forall. intros y Hy%list_elem_of_In%filter_In.
  rewrite Forall_forall in Hx. apply Hx, list_elem_of_In, Hy.
Qed.

Lemma filter_perm {A} (p : A -> bool) (l l' : list A) :
  l ≡ₚ l' -> List.filter p l ≡ₚ List.filter p l'.
Proof.
  induction 1 as [| x l l' _ IH | x y l | l l' l'' _ IH1 _ IH2]; simpl.
  - done.
  - destruct (p x); [by apply perm_skip | done].
  - destruct (p x), (p y); try done. apply perm_swap.
  - by etrans.
Qed.

Lemma runs_concat (concepts : list ConceptEntry) :
  concat (map snd (runs concepts)) = concepts.
Proof.
  induction concepts as [|c cs IH]; simpl; [done |].
  destruct (runs cs) as [|[f g] groups]; simpl in *; [by rewrite <- IH |].
  destruct (String.eqb f (family c)); simpl; by rewrite <- IH.
Qed.

Lemma runs_head (c : ConceptEntry) (cs : list ConceptEntry) :
  exists members groups, runs (c :: cs) = (family c, c :: members) :: groups.
Proof.
  simpl. destruct (runs cs) as [|[f g] groups]; [by eexists _, _ |].
  destruct (String.eqb_spec f (family c)) as [-> |]; by eexists _, _.
Qed.

Lemma runs_members (concepts : list ConceptEntry) :
  Forall (fun g : string * list ConceptEntry =>
            g.2 <> [] /\ Forall (fun c => family c = g.1) g.2) (runs concepts).
Proof.
  induction concepts as [|c cs IH]; simpl; [constructor |].
  destruct (runs cs) as [|[f g] groups]; [by repeat constructor |].
  pose proof IH as IH'. apply Forall_cons in IH' as [[_ Hg] Hgroups]. simpl in Hg.
  destruct (String.eqb_spec f (family c)) as [-> |].
  - constructor; [| done]. simpl. split; [done |]. by constructor.
  - constructor; [| done]. simpl. split; [done |]. by repeat constructor.
Qed.

Lemma runs_keys (concepts : list ConceptEntry) (k : string) :
  k ∈ map fst (runs concepts) -> exists c, c ∈ concepts /\ family c = k.
Proof.
  intros (g & -> & Hg)%list_elem_of_fmap.
  pose proof (runs_members concepts) as Hm. rewrite Forall_forall in Hm.
  destruct (Hm g Hg) as [Hne Hfam]. destruct g as [f [|c members]]; [done |].
  exists c. split; [| by apply Forall_cons in Hfam as [? _]].
  rewrite <- (runs_concat concepts). apply list_elem_of_In, in_concat.
  exists (c :: members). split; [| by left].
  apply in_map_iff. exists (f, c :: members). split; [done |]. by apply list_elem_of_In.
Qed.

Lemma runs_keys_nodup (concepts : list ConceptEntry) :
  StronglySorted family_le concepts -> NoDup (map fst (runs concepts)).
Proof.
  induction 1 as [|c cs Hcs IH Hc]; simpl; [constructor |].
  destruct cs as [|c' cs']; [simpl; repeat constructor; set_solver |].
  destruct (runs_head c' cs') as (members & groups & Hruns).
  rewrite Hruns in *. simpl in IH.
  destruct (String.eqb_spec (family c') (family c)) as [Heq | Hne]; simpl; [done |].
  constructor; [| done].
  intros Hin. change (family c ∈ map fst ((family c', c' :: members) :: groups)) in Hin.
  rewrite <- Hruns in Hin. apply runs_keys in Hin as (d & Hd & Hfd).
  apply Forall_cons in Hc as [Hcc' _].
  assert (family_le c' d) as Hc'd.
  { apply elem_of_cons in Hd as [-> | Hd].
    - apply str_leb_lt_or_eq. by right.
    - apply StronglySorted_inv in Hcs as [_ Hall]. rewrite Forall_forall in Hall.
      by apply Hall. }
  unfold family_le in *. rewrite Hfd in Hc'd. destruct Hne. by apply String.leb_antisym.
Qed.

Section ConceptTableFacts.
Context `{Collaborators}.

Lemma concept_loop (all_concept_names : list string) (concepts : list ConceptEntry)
    (family_seen : option string) (result : list string) :
  snd (foldl (concept_step all_concept_names) (family_seen, result) concepts)
  = result ++ render_from all_concept_names family_seen concepts.
Proof.
  revert family_seen result.
  induction concepts as [|c cs IH]; intros family_seen result; simpl;
    [by rewrite app_nil_r |].
  destruct (is_alias c); [apply IH |].
  case_bool_decide as Hseen; simpl; rewrite IH; fold (family_heading (family c)).
  - by rewrite <- Hseen, <- app_assoc.
  - by rewrite <- !app_assoc.
Qed.

Lemma render_from_runs (all_concept_names : list string) (concepts : list ConceptEntry)
    (family_seen : option string) :
  Forall (fun c => is_alias c = false) concepts ->
  render_from all_concept_names family_seen concepts
  = match runs concepts with
    | [] => []
    | (f, members) :: groups =>
        (if bool_decide (Some f = family_seen) then [] else [family_heading f])
        ++ concat (map (fun concept : ConceptEntry =>
                          get_concept_section all_concept_names concept) members)
        ++ concat (map (render_group all_concept_names) groups)
    end.
Proof.
  revert family_seen. induction concepts as [|c cs IH]; intros family_seen Hshown; [done |].
  apply Forall_cons in Hshown as [Hc Hcs]. simpl. rewrite Hc, (IH _ Hcs).
  destruct (runs cs) as [|[f g] groups]; simpl; [by rewrite !app_nil_r |].
  destruct (String.eqb_spec f (family c)) as [-> | Hne]; simpl.
  - rewrite (bool_decide_eq_true_2 (Some (family c) = Some (family c))) by done.
    simpl. by rewrite <- app_assoc.
  - rewrite (bool_decide_eq_false_2 (Some f = Some (family c))) by congruence.
    by rewrite !app_nil_r.
Qed.

Lemma render_from_shown (all_concept_names : list string) (concepts : list ConceptEntry)
    (family_seen : option string) :
  render_from all_concept_names family_seen concepts
  = render_from all_concept_names family_seen (List.filter shown_concept concepts).
Proof.
  revert family_seen. induction concepts as [|c cs IH]; intros family_seen; simpl; [done |].
  unfold shown_concept at 1. destruct (is_alias c) eqn:Hc; simpl; [apply IH |].
  by rewrite Hc, <- IH.
Qed.

(** X17. [generate_concept_tables] puts every concept that is not an alias
    exactly once under the heading of its family, and every family that
    has such a concept gets exactly one heading: the result is, group after
    group, a heading followed by the sections of the concepts of the group;
    the groups have pairwise different families, none is empty, and
    together they hold the concepts that are not aliases. *)
Theorem concept_tables_grouped (game_concepts : list (string * ConceptEntry)) :
  exists groups : list (string * list ConceptEntry),
    generate_concept_tables game_concepts
    = concat (map (render_group (all_concept_names_of game_concepts)) groups)
    /\ NoDup (map fst groups)
    /\ Forall (fun g : string * list ConceptEntry =>
                 g.2 <> [] /\ Forall (fun c => family c = g.1 /\ is_alias c = false) g.2)
              groups
    /\ concat (map snd groups) ≡ₚ List.filter shown_concept (map snd game_concepts).
Proof.
  set (visible := List.filter shown_concept (sorted (map snd game_concepts))).
  assert (Forall (fun c => is_alias c = false) visible) as Hvisible.
  { apply Forall_forall. intros c [_ Hc]%list_elem_of_In%filter_In.
    unfold shown_concept in Hc. by destruct (is_alias c). }
  exists (runs visible). repeat split.
  - unfold generate_concept_tables. fold (all_concept_names_of game_concepts).
    rewrite concept_loop. simpl. rewrite render_from_shown. fold visible.
    rewrite (render_from_runs _ _ _ Hvisible).
    destruct (runs visible) as [|[f g] groups]; [done |].
    by rewrite bool_decide_eq_false_2 by done.
  - apply runs_keys_nodup, filter_strongly_sorted, sorted_by_family, sorted_sorted.
  - pose proof (runs_members visible) as Hm. pose proof (runs_concat visible) as Hcat.
    rewrite Forall_forall in Hm. apply Forall_forall. intros g Hg.
    destruct (Hm g Hg) as [Hne Hfam]. split; [done |].
    apply Forall_forall. intros c Hc. rewrite Forall_forall in Hfam. split; [by apply Hfam |].
    rewrite Forall_forall in Hvisible. apply Hvisible.
    rewrite <- Hcat. apply list_elem_of_In, in_concat. exists g.2. split.
    + apply in_map. by apply list_elem_of_In.
    + by apply list_elem_of_In.
  - rewrite runs_concat. apply filter_perm, sorted_perm.
Qed.

End ConceptTableFacts.

Example concept_tables_sample :
  @generate_concept_tables plain_collaborators sample_concepts
  = [ "== Uncategorized ==";
      "=== Zeal ===";
      "<section begin=autogenerated_concept_zeal/>Zeal.<section end=autogenerated_concept_zeal/>";
      "== Economy ==";
      "=== Gold ===";
      "<section begin=autogenerated_concept_gold/>Gold.<section end=autogenerated_concept_gold/>";
      "=== Trade ===";
      "<section begin=autogenerated_concept_trade/>Trade.<section end=autogenerated_concept_trade/>" ].
Proof. vm_compute. reflexivity. Qed.
